(** * claude-island-state.py: the hook that bridges Claude lifecycle events
      to ClaudeIsland.app

    A shallow embedding of [src/ClaudeIsland/Resources/claude-island-state.py].
    Python dictionaries are finite maps with string keys, Python values are
    the JSON values the script handles ([None] is [JNull]), exceptions and
    [sys.exit] are an error result, and every call into the socket library
    and every [print] is recorded in a trace.  What the operating system and
    the peer answer is read from a [World]. *)

From Stdlib Require Import ZArith NArith Ascii String.
From Stdlib Require Import Floats.SpecFloat.
From stdpp Require Import base option strings gmap list.

Local Open Scope Z_scope.
Local Open Scope string_scope.

(** ** Values *)

#[local] Set Warnings "-register-all,-clear-no-such-hyp".

(** What [json.load] yields, and all the script ever stores in a dict. *)
Inductive json : Type :=
| JNull
| JBool (b : bool)
| JInt (z : Z)
| JFloat (f : spec_float)
| JStr (s : string)
| JArr (l : list json)
| JObj (m : gmap string json).

(** Python truthiness ([if v:], [v or d]). *)
Definition truthy (v : json) : bool :=
  match v with
  | JNull => false
  | JBool b => b
  | JInt z => negb (Z.eqb z 0)
  | JFloat f => match f with S754_zero _ => false | _ => true end
  | JStr s => negb (String.eqb s "")
  | JArr l => match l with [] => false | _ => true end
  | JObj m => negb (Nat.eqb (size m) 0)
  end.

(** [v == "lit"] for a string literal: only a [str] equals a [str]. *)
Definition eq_str (v : json) (lit : string) : bool :=
  match v with
  | JStr s => String.eqb s lit
  | _ => false
  end.

(** [a or b]. *)
Definition py_or (a b : json) : json := if truthy a then a else b.

(** [d.get(k)] and [d.get(k, default)] on a dict. *)
Definition dict_get (d : gmap string json) (k : string) : json :=
  default JNull (d !! k).

Definition dict_get_default (d : gmap string json) (k : string) (dflt : json) : json :=
  default dflt (d !! k).

(** An [Optional[str]] as a Python value. *)
Definition of_opt_str (o : option string) : json :=
  match o with
  | Some s => JStr s
  | None => JNull
  end.

(** ** Strings: the few [str] methods the script calls *)

Module Str.

(** [str.isspace] on the ASCII range: what [str.strip] removes. *)
Definition is_space (c : ascii) : bool :=
  let n := N_of_ascii c in
  (N.leb 9 n && N.leb n 13) || (N.leb 28 n && N.leb n 32).

Fixpoint lstrip (s : string) : string :=
  match s with
  | String c r => if is_space c then lstrip r else s
  | EmptyString => EmptyString
  end.

Fixpoint rev_onto (s acc : string) : string :=
  match s with
  | String c r => rev_onto r (String c acc)
  | EmptyString => acc
  end.

Definition rev (s : string) : string := rev_onto s EmptyString.

(** [s.strip()] *)
Definition strip (s : string) : string := rev (lstrip (rev (lstrip s))).

(** [s.startswith(p)] *)
Fixpoint startswith (p s : string) : bool :=
  match p, s with
  | EmptyString, _ => true
  | String a p', String b s' => Ascii.eqb a b && startswith p' s'
  | String _ _, EmptyString => false
  end.

(** [":" in s] *)
Fixpoint has_colon (s : string) : bool :=
  match s with
  | String c r => Ascii.eqb c ":" || has_colon r
  | EmptyString => false
  end.

(** [s.rsplit(":", 1)] when it has two parts: the text before the last
    colon and the text after it; [None] when [s] has no colon (Python then
    returns the one-element list [[s]]). *)
Fixpoint rsplit_colon (s : string) : option (string * string) :=
  match s with
  | EmptyString => None
  | String c r =>
      match rsplit_colon r with
      | Some (h, p) => Some (String c h, p)
      | None => if Ascii.eqb c ":" then Some (EmptyString, r) else None
      end
  end.

(** The whitespace [int] skips around a number: tab to carriage return, and
    space.  (It is a smaller set than [str.isspace]: the separators 28-31
    are not in it.) *)
Definition is_int_space (c : ascii) : bool :=
  let n := N_of_ascii c in
  (N.leb 9 n && N.leb n 13) || N.eqb n 32.

Fixpoint lstrip_int (s : string) : string :=
  match s with
  | String c r => if is_int_space c then lstrip_int r else s
  | EmptyString => EmptyString
  end.

Definition strip_int (s : string) : string := rev (lstrip_int (rev (lstrip_int s))).

Definition digit_val (c : ascii) : option Z :=
  let n := N_of_ascii c in
  if N.leb 48 n && N.leb n 57 then Some (Z.of_N n - 48) else None.

(** Decimal digits with single underscores between digits;
    [after_digit] says whether the previous character was a digit. *)
Fixpoint digits (s : string) (acc : Z) (after_digit : bool) : option Z :=
  match s with
  | EmptyString => if after_digit then Some acc else None
  | String c r =>
      match digit_val c with
      | Some d => digits r (10 * acc + d) true
      | None =>
          if Ascii.eqb c "_" && after_digit then digits r acc false else None
      end
  end.

(** The number of decimal digits in [s]. *)
Fixpoint count_digits (s : string) : Z :=
  match s with
  | EmptyString => 0
  | String c r =>
      match digit_val c with
      | Some _ => 1 + count_digits r
      | None => count_digits r
      end
  end.

(** [sys.int_max_str_digits] as the interpreter sets it by default. *)
Definition INT_MAX_STR_DIGITS : Z := 4300.

(** [int(s)] on ASCII text, in an interpreter with the default limit on
    the number of digits: the whitespace of [is_int_space] on both sides,
    one optional sign, then digits with single underscores between them.
    [None] is [ValueError].  This is the [int] of the sample worlds below;
    the script is modelled on the [py_int] of an arbitrary world. *)
Definition to_int (s : string) : option Z :=
  let body :=
    match strip_int s with
    | String "+" r => r
    | String "-" r => r
    | t => t
    end in
  if Z.ltb INT_MAX_STR_DIGITS (count_digits body) then None
  else
    match strip_int s with
    | String "-" r => Z.opp <$> digits r 0 false
    | _ => digits body 0 false
    end.

End Str.

(** ** Exceptions *)

Inductive os_error : Type :=
| ConnectionRefused
| FileNotFound
| TimedOut          (* socket.timeout *)
| BrokenPipe
| OtherOSError.

(** Subclasses of [Exception]. *)
Inductive exn : Type :=
| OSError (e : os_error)      (* socket.error is the same class *)
| JSONDecodeError             (* a subclass of ValueError *)
| UnicodeDecodeError          (* a subclass of ValueError *)
| ValueError
| AttributeError
| OverflowError
| OtherException.

Definition is_OSError (e : exn) : bool :=
  match e with OSError _ => true | _ => false end.

Definition is_JSONDecodeError (e : exn) : bool :=
  match e with JSONDecodeError => true | _ => false end.

(** What a library call answers. *)
Inductive answer (A : Type) : Type :=
| Ok (a : A)
| Fails (e : exn).
Arguments Ok {A} a.
Arguments Fails {A} e.

(** How a piece of the script ends: it returns, it raises, or it leaves
    through [sys.exit] ([SystemExit] is no [Exception], so no [except]
    clause of the script catches it). *)
Inductive res (A : Type) : Type :=
| Ret (a : A)
| Raise (e : exn)
| Exit (code : Z).
Arguments Ret {A} a.
Arguments Raise {A} e.
Arguments Exit {A} code.

(** ** The outside world *)

Inductive sock_family : Type := AF_INET | AF_UNIX.

Inductive address : Type :=
| TcpAddr (host : string) (port : Z)
| UnixAddr (path : string).

(** Calls that leave the process, in the order they are made.  The payload
    of [EvSendAll] and [EvPrint] is the value handed to [json.dumps].
    [EvClose] is a call of [sock.close()]; [EvDealloc] is the interpreter
    deallocating a socket object that is still open, which closes its
    descriptor. *)
Inductive io_event : Type :=
| EvSocket (fam : sock_family)
| EvSetTimeout (seconds : Z)
| EvConnect (a : address)
| EvSendAll (payload : json)
| EvRecv (bufsize : Z)
| EvClose
| EvDealloc
| EvPrint (doc : json).

Record World : Type := {
  (** [os.environ] *)
  environ : gmap string string;
  (** [json.load(sys.stdin)] *)
  stdin_load : answer json;
  (** [os.getppid()] *)
  getppid : Z;
  (** [int(s)] for a [str]: [None] when it raises [ValueError] *)
  py_int : string -> option Z;
  (** [subprocess.run(["ps", ...])]: [result.stdout], [None] when the call
      raises (whatever it raises is an [Exception]) *)
  ps_stdout : option string;
  (** [os.ttyname(sys.stdin.fileno())], [os.ttyname(sys.stdout.fileno())]:
      [None] when the call raises [OSError] or [AttributeError] *)
  ttyname_stdin : option string;
  ttyname_stdout : option string;
  (** [subprocess.run(["tmux", ...])]: [(result.returncode, result.stdout)],
      [None] when the call raises *)
  tmux_run : option (Z * string);
  (** [sock.connect(addr)] *)
  connect_outcome : address -> option exn;
  (** [sock.sendall(json.dumps(payload).encode())] *)
  sendall_outcome : json -> option exn;
  (** [sock.recv(bufsize)] *)
  recv_outcome : Z -> answer string;
  (** [json.loads(response.decode())] *)
  loads_decode : string -> answer json;
}.

(** ** Computations: reader of the world, writer of the trace, errors *)

Definition M (A : Type) : Type := World -> list io_event -> res A * list io_event.

#[global] Instance M_ret : MRet M := fun A a _ t => (Ret a, t).

#[global] Instance M_bind : MBind M := fun A B k m w t =>
  match m w t with
  | (Ret a, t') => k a w t'
  | (Raise e, t') => (Raise e, t')
  | (Exit code, t') => (Exit code, t')
  end.

Definition raise {A} (e : exn) : M A := fun _ t => (Raise e, t).

Definition emit (ev : io_event) : M unit := fun _ t => (Ret tt, (t ++ [ev])%list).

Definition ask {A} (f : World -> A) : M A := fun w t => (Ret (f w), t).

Definition lift_answer {A} (f : World -> answer A) : M A := fun w t =>
  match f w with
  | Ok a => (Ret a, t)
  | Fails e => (Raise e, t)
  end.

Definition lift_exn (f : World -> option exn) : M unit := fun w t =>
  match f w with
  | None => (Ret tt, t)
  | Some e => (Raise e, t)
  end.

(** [try: body  except <classes>: handler] *)
Definition try_except {A} (body : M A) (classes : exn -> bool) (handler : M A) : M A :=
  fun w t =>
    match body w t with
    | (Ret a, t') => (Ret a, t')
    | (Raise e, t') => if classes e then handler w t' else (Raise e, t')
    | (Exit code, t') => (Exit code, t')
    end.

(** [sys.exit(code)] *)
Definition sys_exit {A} (code : Z) : M A := fun _ t => (Exit code, t).

(** ** The script *)

Definition SOCKET_PATH : string := "/tmp/claude-island.sock".
Definition TCP_DEFAULT_PORT : Z := 12345.
Definition TIMEOUT_SECONDS : Z := 300.

Definition nonempty (s : string) : bool := negb (String.eqb s "").

(** [os.environ.get(name)] *)
Definition environ_get (name : string) : M (option string) :=
  ask (fun w => environ w !! name).

(** [if v:] for an [Optional[str]]. *)
Definition opt_truthy (o : option string) : bool := truthy (of_opt_str o).

(** [v.get]: only a dict has the method. *)
Definition as_dict (v : json) : M (gmap string json) :=
  match v with
  | JObj d => mret d
  | _ => raise AttributeError
  end.

(** Lines 21-54.  Every call that can raise sits in a [try] whose [except]
    falls through to the next probe. *)
Definition get_tty (w : World) : option string :=
  let from_ps :=
    match ps_stdout w with
    | Some out =>
        let tty := Str.strip out in
        if nonempty tty && negb (String.eqb tty "??") && negb (String.eqb tty "-")
        then Some (if Str.startswith "/dev/" tty then tty else "/dev/" ++ tty)
        else None
    | None => None
    end in
  match from_ps with
  | Some tty => Some tty
  | None =>
      match ttyname_stdin w with
      | Some name => Some name
      | None => ttyname_stdout w
      end
  end.

(** [int(s)] *)
Definition int_of (s : string) : M Z := fun w t =>
  match py_int w s with
  | Some n => (Ret n, t)
  | None => (Raise ValueError, t)
  end.

(** Lines 57-76.  The socket the function returns is the only one the
    process ever holds, so the trace needs no handle. *)
Definition get_socket : M unit :=
  tcp_target ← environ_get "CLAUDE_ISLAND_TCP";
  if opt_truthy tcp_target then
    let target := default "" tcp_target in
    host_port ←
      (if Str.has_colon target then
         match Str.rsplit_colon target with
         | Some (host, port_str) => port ← int_of port_str; mret (host, port)
         | None => raise ValueError
         end
       else port ← int_of target; mret ("localhost", port));
    emit (EvSocket AF_INET);;
    emit (EvSetTimeout TIMEOUT_SECONDS);;
    emit (EvConnect (TcpAddr host_port.1 host_port.2));;
    lift_exn (fun w => connect_outcome w (TcpAddr host_port.1 host_port.2))
  else
    emit (EvSocket AF_UNIX);;
    emit (EvSetTimeout TIMEOUT_SECONDS);;
    emit (EvConnect (UnixAddr SOCKET_PATH));;
    lift_exn (fun w => connect_outcome w (UnixAddr SOCKET_PATH)).

(** Lines 79-100. *)
Definition get_tmux_target (w : World) : option string :=
  let pane := environ w !! "TMUX_PANE" in
  if negb (opt_truthy pane) then None
  else
    let full :=
      match tmux_run w with
      | Some result =>
          if Z.eqb result.1 0 && nonempty (Str.strip result.2)
          then Some (Str.strip result.2) else None
      | None => None
      end in
    match full with
    | Some target => Some target
    | None => pane
    end.

(** The classes named at line 119. *)
Definition send_event_catches (e : exn) : bool :=
  is_OSError e || is_JSONDecodeError e.

(** Whether the descriptor of the socket is open after the events [t]:
    [socket.socket] opens it, [sock.close()] and the deallocation of the
    socket object close it. *)
Fixpoint descriptor_open_from (open : bool) (t : list io_event) : bool :=
  match t with
  | [] => open
  | EvSocket _ :: t' => descriptor_open_from true t'
  | EvClose :: t' => descriptor_open_from false t'
  | EvDealloc :: t' => descriptor_open_from false t'
  | _ :: t' => descriptor_open_from open t'
  end.

Definition descriptor_open (t : list io_event) : bool := descriptor_open_from false t.

(** A function that returns gives up its local [sock], the only reference
    to the socket object (also when the socket was made by [get_socket] and
    that call raised: the traceback that holds its frame goes with the
    handled exception).  The interpreter deallocates the object then, and a
    socket that [sock.close()] has not closed is closed at that point.  An
    exception that leaves the function keeps the frame alive. *)
Definition dropped {A} (out : res A * list io_event) : res A * list io_event :=
  match out with
  | (Ret a, t) => (Ret a, if descriptor_open t then (t ++ [EvDealloc])%list else t)
  | _ => out
  end.

Definition drop_socket {A} (body : M A) : M A := fun w t => dropped (body w t).

(** Lines 103-120.  The result is the decoded reply, [JNull] for [None]. *)
Definition send_event (state : gmap string json) : M json :=
  drop_socket
    (try_except
       (get_socket;;
        emit (EvSendAll (JObj state));;
        lift_exn (fun w => sendall_outcome w (JObj state));;
        if eq_str (dict_get state "status") "waiting_for_approval" then
          emit (EvRecv 4096);;
          response ← lift_answer (fun w => recv_outcome w 4096);
          emit EvClose;;
          if nonempty response then lift_answer (fun w => loads_decode w response)
          else mret JNull
        else
          emit EvClose;;
          mret JNull)
       send_event_catches (mret JNull)).

(** Lines 142-151: the dict literal. *)
Definition build_state (session_id cwd event : json) (claude_pid : Z)
    (tty remote_host tmux_target : option string) : gmap string json :=
  <["tmux_target" := of_opt_str tmux_target]>
  (<["remote_host" := of_opt_str remote_host]>
  (<["tty" := of_opt_str tty]>
  (<["pid" := JInt claude_pid]>
  (<["event" := event]>
  (<["cwd" := cwd]>
  (<["session_id" := session_id]> ∅)))))).

(** Lines 160-165 and 169-174: [tool], [tool_input], and [tool_use_id]
    when the event carries a truthy one. *)
Definition with_tool_use_id (data state : gmap string json) : gmap string json :=
  let tool_use_id_from_event := dict_get data "tool_use_id" in
  if truthy tool_use_id_from_event
  then <["tool_use_id" := tool_use_id_from_event]> state
  else state.

Definition with_tool (data : gmap string json) (tool_input : json)
    (state : gmap string json) : gmap string json :=
  <["tool_input" := tool_input]> (<["tool" := dict_get data "tool_name"]> state).

(** What the chain at lines 153-249 leaves in [state] on the way to a
    [send_event] call, or [Suppressed] where it leaves through line 222. *)
Inductive classified : Type :=
| Suppressed
| Record_ (state : gmap string json).

Definition set_status (status : string) (state : gmap string json) : gmap string json :=
  <["status" := JStr status]> state.

Definition classify (data : gmap string json) (event tool_input : json)
    (state : gmap string json) : classified :=
  if eq_str event "UserPromptSubmit" then
    Record_ (set_status "processing" state)
  else if eq_str event "PreToolUse" then
    Record_ (with_tool_use_id data (with_tool data tool_input (set_status "running_tool" state)))
  else if eq_str event "PostToolUse" then
    Record_ (with_tool_use_id data (with_tool data tool_input (set_status "processing" state)))
  else if eq_str event "PermissionRequest" then
    Record_ (with_tool data tool_input (set_status "waiting_for_approval" state))
  else if eq_str event "Notification" then
    let notification_type := dict_get data "notification_type" in
    if eq_str notification_type "permission_prompt" then Suppressed
    else
      let state :=
        if eq_str notification_type "idle_prompt"
        then set_status "waiting_for_input" state
        else set_status "notification" state in
      Record_ (<["message" := dict_get data "message"]>
               (<["notification_type" := notification_type]> state))
  else if eq_str event "Stop" then
    Record_ (set_status "waiting_for_input" state)
  else if eq_str event "SubagentStop" then
    Record_ (set_status "waiting_for_input" state)
  else if eq_str event "SessionStart" then
    Record_ (set_status "waiting_for_input" state)
  else if eq_str event "SessionEnd" then
    Record_ (set_status "ended" state)
  else if eq_str event "PreCompact" then
    Record_ (set_status "compacting" state)
  else
    Record_ (set_status "unknown" state).

(** [print(json.dumps(output))] *)
Definition print (doc : json) : M unit := emit (EvPrint doc).

Definition DENIED_DEFAULT : string := "Denied by user via ClaudeIsland".

(** Lines 192-197 and 203-211. *)
Definition hook_output (decision : gmap string json) : json :=
  JObj {[ "hookSpecificOutput" :=
            JObj (<["decision" := JObj decision]>
                  {[ "hookEventName" := JStr "PermissionRequest" ]}) ]}.

Definition output_allow : json :=
  hook_output {[ "behavior" := JStr "allow" ]}.

Definition output_deny (reason : json) : json :=
  hook_output (<["message" := py_or reason (JStr DENIED_DEFAULT)]>
               {[ "behavior" := JStr "deny" ]}).

(** Lines 186-216: what the process does with the reply. *)
Definition translate (response : json) : M unit :=
  (if truthy response then
     reply ← as_dict response;
     let decision := dict_get_default reply "decision" (JStr "ask") in
     let reason := dict_get_default reply "reason" (JStr "") in
     if eq_str decision "allow" then
       print output_allow;; sys_exit 0
     else if eq_str decision "deny" then
       print (output_deny reason);; sys_exit 0
     else mret tt
   else mret tt);;
  sys_exit 0.

(** Lines 129-252: [main] once [data] is bound. *)
Definition main_body (data : json) : M unit :=
  data ← as_dict data;
  let session_id := dict_get_default data "session_id" (JStr "unknown") in
  let event := dict_get_default data "hook_event_name" (JStr "") in
  let cwd := dict_get_default data "cwd" (JStr "") in
  let tool_input := dict_get_default data "tool_input" (JObj ∅) in
  claude_pid ← ask getppid;
  tty ← ask get_tty;
  remote_host ← environ_get "CLAUDE_ISLAND_REMOTE_HOST";
  tmux_target ← ask (fun w => if opt_truthy remote_host then get_tmux_target w else None);
  let state := build_state session_id cwd event claude_pid tty remote_host tmux_target in
  match classify data event tool_input state with
  | Suppressed => sys_exit 0
  | Record_ state =>
      if eq_str event "PermissionRequest" then
        response ← send_event state;
        translate response
      else
        send_event state;; mret tt
  end.

(** Lines 123-127, then the rest. *)
Definition main : M unit :=
  data ← try_except (lift_answer stdin_load) is_JSONDecodeError (sys_exit 1);
  main_body data.

(** The process: [main] on an empty trace.  The exit status is 0 when
    [main] returns, the argument of [sys.exit], and 1 after a traceback. *)
Definition run (w : World) : res unit * list io_event := main w [].

Definition exit_status (r : res unit) : Z :=
  match r with
  | Ret _ => 0
  | Exit code => code
  | Raise _ => 1
  end.

Definition stdout_of (t : list io_event) : list json :=
  omap (fun ev => match ev with EvPrint d => Some d | _ => None end) t.

Definition is_network (ev : io_event) : bool :=
  match ev with EvPrint _ => false | _ => true end.

Definition network_of (t : list io_event) : list io_event := filter is_network t.

(** ** The table of section 4.2, as the specification words it *)

Module Table.

Inductive extra : Type := Tool | ToolInput | ToolUseId | NotificationType | Message.

(** The name of the field in the record. *)
Definition key (x : extra) : string :=
  match x with
  | Tool => "tool"
  | ToolInput => "tool_input"
  | ToolUseId => "tool_use_id"
  | NotificationType => "notification_type"
  | Message => "message"
  end.

Inductive row : Type :=
| NoRecord
| Status (status : string) (extras : list extra).

Definition rows : list (string * row) :=
  [ ("UserPromptSubmit", Status "processing" []);
    ("PreToolUse", Status "running_tool" [Tool; ToolInput; ToolUseId]);
    ("PostToolUse", Status "processing" [Tool; ToolInput; ToolUseId]);
    ("PermissionRequest", Status "waiting_for_approval" [Tool; ToolInput]);
    ("Stop", Status "waiting_for_input" []);
    ("SubagentStop", Status "waiting_for_input" []);
    ("SessionStart", Status "waiting_for_input" []);
    ("SessionEnd", Status "ended" []);
    ("PreCompact", Status "compacting" []) ].

Definition notification_row (notification_type : json) : row :=
  if eq_str notification_type "permission_prompt" then NoRecord
  else if eq_str notification_type "idle_prompt"
  then Status "waiting_for_input" [NotificationType; Message]
  else Status "notification" [NotificationType; Message].

Fixpoint assoc (tag : string) (l : list (string * row)) : option row :=
  match l with
  | [] => None
  | (t, r) :: l' => if String.eqb tag t then Some r else assoc tag l'
  end.

(** The row of an event tag; "anything else" is the last row. *)
Definition lookup (event notification_type : json) : row :=
  match event with
  | JStr tag =>
      if String.eqb tag "Notification" then notification_row notification_type
      else default (Status "unknown" []) (assoc tag rows)
  | _ => Status "unknown" []
  end.

(** Where a field's value comes from in the input, reading "if present"
    for [tool_use_id] as the specification words it: the key is in the
    input document. *)
Definition source_as_worded (data : gmap string json) (x : extra) : option json :=
  match x with
  | Tool => Some (dict_get data "tool_name")
  | ToolInput => Some (dict_get_default data "tool_input" (JObj ∅))
  | ToolUseId => data !! "tool_use_id"
  | NotificationType => Some (dict_get data "notification_type")
  | Message => Some (dict_get data "message")
  end.

(** The same, with [tool_use_id] copied when the input holds a truthy
    one: a key that is absent, [null], empty, zero or false is left out. *)
Definition source (data : gmap string json) (x : extra) : option json :=
  match x with
  | ToolUseId =>
      if truthy (dict_get data "tool_use_id")
      then Some (dict_get data "tool_use_id") else None
  | _ => source_as_worded data x
  end.

Definition copy (src : extra -> option json) (state : gmap string json) (x : extra)
    : gmap string json :=
  match src x with
  | Some v => <[key x := v]> state
  | None => state
  end.

(** The record a row asks for: the status, then each listed field. *)
Definition expected (src : extra -> option json) (state : gmap string json) (r : row)
    : classified :=
  match r with
  | NoRecord => Suppressed
  | Status status extras =>
      Record_ (fold_left (copy src) extras (<["status" := JStr status]> state))
  end.

(** The names of the fields a row adds. *)
Definition copied (src : extra -> option json) (extras : list extra) : gset string :=
  list_to_set (key <$> filter (fun x => is_Some (src x)) extras).

End Table.

(** ** Observations, expected shapes and sample worlds *)

(** The seven fields of the dict literal. *)
Definition base_fields : gset string :=
  {[ "session_id"; "cwd"; "event"; "pid"; "tty"; "remote_host"; "tmux_target" ]}.

(** The values of [status] the table names. *)
Definition statuses : list string :=
  [ "processing"; "running_tool"; "waiting_for_approval"; "waiting_for_input";
    "ended"; "compacting"; "notification"; "unknown" ].

Ltac case_tag tag lit :=
  let E := fresh "E" in
  destruct (String.eqb tag lit) eqn:E;
  [apply String.eqb_eq in E; subst tag | ].

#[global] Instance extra_eq_dec : EqDecision Table.extra.
Proof. solve_decision. Defined.

(** Every row the table can answer with. *)
Definition all_rows : list Table.row :=
  Table.NoRecord
  :: Table.Status "unknown" []
  :: Table.Status "waiting_for_input" [Table.NotificationType; Table.Message]
  :: Table.Status "notification" [Table.NotificationType; Table.Message]
  :: Table.rows.*2.

(** A row lists no field twice and names one of the eight statuses. *)
Definition row_ok (r : Table.row) : Prop :=
  match r with
  | Table.NoRecord => True
  | Table.Status status extras => NoDup extras /\ status ∈ statuses
  end.

#[global] Instance row_ok_dec r : Decision (row_ok r).
Proof. destruct r; simpl; apply _. Defined.

(** The directive of a printed document:
    [doc["hookSpecificOutput"]["decision"]]. *)
Definition directive (doc : json) : option json :=
  match doc with
  | JObj m =>
      match m !! "hookSpecificOutput" with
      | Some (JObj h) => h !! "decision"
      | _ => None
      end
  | _ => None
  end.

Definition allow_directive : json := JObj {[ "behavior" := JStr "allow" ]}.

Definition deny_directive (message : json) : json :=
  JObj (<["message" := message]> {[ "behavior" := JStr "deny" ]}).

Ltac step_M :=
  cbv [mbind M_bind mret M_ret raise emit ask lift_answer lift_exn try_except
       sys_exit print as_dict environ_get int_of].

(** The dict literal of lines 143-151 with the ambient context of [w]. *)
Definition initial_state (w : World) (data : gmap string json) : gmap string json :=
  let remote_host := environ w !! "CLAUDE_ISLAND_REMOTE_HOST" in
  build_state (dict_get_default data "session_id" (JStr "unknown"))
    (dict_get_default data "cwd" (JStr ""))
    (dict_get_default data "hook_event_name" (JStr ""))
    (getppid w) (get_tty w) remote_host
    (if opt_truthy remote_host then get_tmux_target w else None).

(** The record [main] hands to [send_event], if any. *)
Definition record_of (w : World) (data : gmap string json) : classified :=
  classify data (dict_get_default data "hook_event_name" (JStr ""))
    (dict_get_default data "tool_input" (JObj ∅)) (initial_state w data).

(** The record of a [PermissionRequest]. *)
Definition request_state (w : World) (data : gmap string json) : gmap string json :=
  with_tool data (dict_get_default data "tool_input" (JObj ∅))
    (set_status "waiting_for_approval" (initial_state w data)).

(** What the [except] clause of line 119 makes of an exception. *)
Definition absorbed (e : exn) : res json :=
  if send_event_catches e then Ret JNull else Raise e.

Definition is_write (ev : io_event) : bool :=
  match ev with EvSendAll _ => true | _ => false end.

Definition is_read (ev : io_event) : bool :=
  match ev with EvRecv _ => true | _ => false end.

(** The writes and reads of a trace, in order. *)
Definition transfers (t : list io_event) : list io_event :=
  filter (fun ev => is_write ev || is_read ev) t.

(** A world whose peer accepts the connection and the bytes, and answers the
    read with [reply], decoded as [decoded]; no terminal is found. *)
Definition peer_world (env : gmap string string) (stdin : answer json)
    (reply : answer string) (decoded : answer json) : World :=
  {| environ := env;
     stdin_load := stdin;
     getppid := 4242;
     py_int := Str.to_int;
     ps_stdout := None;
     ttyname_stdin := None;
     ttyname_stdout := None;
     tmux_run := None;
     connect_outcome := fun _ => None;
     sendall_outcome := fun _ => None;
     recv_outcome := fun _ => reply;
     loads_decode := fun _ => decoded |}.

(** A [PermissionRequest] arrives and the application answers [reply]. *)
Definition request_doc : gmap string json :=
  {[ "hook_event_name" := JStr "PermissionRequest" ]}.

Definition asked_world (reply : gmap string json) : World :=
  peer_world ∅ (Ok (JObj request_doc)) (Ok "{...}") (Ok (JObj reply)).

(** The events of a successful exchange that waits for the reply. *)
Definition asked_trace (w : World) : list io_event :=
  [ EvSocket AF_UNIX; EvSetTimeout 300; EvConnect (UnixAddr SOCKET_PATH);
    EvSendAll (JObj (request_state w request_doc)); EvRecv 4096; EvClose ].

Definition prompt_doc : gmap string json :=
  {[ "hook_event_name" := JStr "Notification";
     "notification_type" := JStr "permission_prompt" ]}.

Definition stop_doc : gmap string json := {[ "hook_event_name" := JStr "Stop" ]}.

(** [CLAUDE_ISLAND_TCP=localhost:abc]. *)
Definition bad_port_world : World :=
  peer_world {[ "CLAUDE_ISLAND_TCP" := "localhost:abc" ]} (Ok (JObj stop_doc))
    (Ok "") (Ok JNull).

Definition is_close (ev : io_event) : bool :=
  match ev with EvClose => true | _ => false end.

(** The application accepts the record and never answers. *)
Definition silent_world : World :=
  peer_world ∅ (Ok (JObj request_doc)) (Fails (OSError TimedOut)) (Ok JNull).

Definition tcp_world (target : string) : World :=
  peer_world {[ "CLAUDE_ISLAND_TCP" := target ]} (Ok (JObj stop_doc)) (Ok "") (Ok JNull).

Ltac in_trace H :=
  repeat (apply elem_of_cons in H as [H|H];
          [first [discriminate H | injection H as H]|]);
  try (by apply elem_of_nil in H).

(** A [Stop] event in a session without terminal or remote host. *)
Definition bare_world : World := peer_world ∅ (Ok (JObj stop_doc)) (Ok "") (Ok JNull).

Definition bare_record : gmap string json :=
  set_status "waiting_for_input" (initial_state bare_world stop_doc).

(** A [Notification] that carries neither type nor message. *)
Definition notice_doc : gmap string json := {[ "hook_event_name" := JStr "Notification" ]}.

Definition notice_world : World := peer_world ∅ (Ok (JObj notice_doc)) (Ok "") (Ok JNull).

(** The process wrote the one document [doc] to standard output after the
    events [t] and exited with status 0. *)
Definition said (w : World) (t : list io_event) (doc : json) : Prop :=
  run w = (Exit 0, (t ++ [EvPrint doc])%list)
  /\ exit_status (run w).1 = 0
  /\ stdout_of (run w).2 = [doc].

(** The process wrote nothing to standard output and, after the events
    [t], exited with status 0. *)
Definition deferred (w : World) (t : list io_event) : Prop :=
  run w = (Exit 0, t)
  /\ exit_status (run w).1 = 0
  /\ stdout_of (run w).2 = [].

(** ** Further observations *)

(** The text handed to [int] at lines 64 and 67. *)
Definition port_text (target : string) : string :=
  match Str.rsplit_colon target with
  | Some (_, port_str) => port_str
  | None => target
  end.

(** [int] accepts the port of [CLAUDE_ISLAND_TCP], or the variable is not
    used (unset or empty). *)
Definition port_reads (w : World) : bool :=
  match environ w !! "CLAUDE_ISLAND_TCP" with
  | Some target =>
      if nonempty target
      then match py_int w (port_text target) with Some _ => true | None => false end
      else true
  | None => true
  end.


(** The socket calls of one exchange, in the order lines 68-70 (or 73-75)
    and 107-116 make them. *)
Definition exchange_script (fam : sock_family) (a : address) (payload : json)
    (wait : bool) : list io_event :=
  [EvSocket fam; EvSetTimeout TIMEOUT_SECONDS; EvConnect a; EvSendAll payload]
  ++ (if wait then [EvRecv 4096] else []) ++ [EvClose].

Definition is_dealloc (ev : io_event) : bool :=
  match ev with EvDealloc => true | _ => false end.

(** The calls the script makes on the socket: the trace without the
    deallocation. *)
Definition socket_calls (t : list io_event) : list io_event :=
  filter (fun ev => negb (is_dealloc ev)) t.

Definition is_socket (ev : io_event) : bool :=
  match ev with EvSocket _ => true | _ => false end.

(** A world in which nothing listens: every [connect] is refused. *)
Definition offline_world (env : gmap string string) (stdin : answer json) : World :=
  {| environ := env;
     stdin_load := stdin;
     getppid := 4242;
     py_int := Str.to_int;
     ps_stdout := None;
     ttyname_stdin := None;
     ttyname_stdout := None;
     tmux_run := None;
     connect_outcome := fun _ => Some (OSError ConnectionRefused);
     sendall_outcome := fun _ => None;
     recv_outcome := fun _ => Ok "";
     loads_decode := fun _ => Ok JNull |}.


(** A world described by its probes only. *)
Definition probe_world (env : gmap string string) (ps tty_in tty_out : option string)
    (tmux : option (Z * string)) : World :=
  {| environ := env;
     stdin_load := Ok (JObj stop_doc);
     getppid := 4242;
     py_int := Str.to_int;
     ps_stdout := ps;
     ttyname_stdin := tty_in;
     ttyname_stdout := tty_out;
     tmux_run := tmux;
     connect_outcome := fun _ => None;
     sendall_outcome := fun _ => None;
     recv_outcome := fun _ => Ok "";
     loads_decode := fun _ => Ok JNull |}.

(** Standard input holds JSON that is no object. *)
Definition array_world : World := peer_world ∅ (Ok (JArr [])) (Ok "") (Ok JNull).

(** The application answers a [PermissionRequest] with the JSON array
    [[1]]. *)
Definition array_reply_world : World :=
  peer_world ∅ (Ok (JObj request_doc)) (Ok "[1]") (Ok (JArr [JInt 1])).

(** The terminal name [ps] gives, when it gives a usable one (lines
    36-37): the output without surrounding whitespace, unless it is empty,
    [??] or [-]. *)
Definition ps_name (w : World) : option string :=
  match ps_stdout w with
  | Some out =>
      let name := Str.strip out in
      if nonempty name && negb (String.eqb name "??") && negb (String.eqb name "-")
      then Some name else None
  | None => None
  end.



(** A remote session inside tmux, where the tmux query fails. *)
Definition remote_world : World :=
  probe_world {[ "CLAUDE_ISLAND_REMOTE_HOST" := "cluster"; "TMUX_PANE" := "%42" ]}
    None None None None.


(** * Properties *)

(** ** Lemmas on values and dicts *)

Lemma eq_str_JStr s lit : eq_str (JStr s) lit = String.eqb s lit.
Proof. reflexivity. Qed.

Lemma eq_str_true v lit : eq_str v lit = true <-> v = JStr lit.
Proof.
  destruct v; simpl; try (split; [discriminate | intros [=]]).
  rewrite String.eqb_eq. split; [by intros -> | by intros [= ->]].
Qed.

Lemma truthy_JObj_lookup (m : gmap string json) k v :
  m !! k = Some v -> truthy (JObj m) = true.
Proof.
  intros Hk. simpl. apply negb_true_iff, Nat.eqb_neq.
  intros Hsize. apply map_size_empty_iff in Hsize. subst m.
  by rewrite lookup_empty in Hk.
Qed.

Lemma dom_build_state session_id cwd event pid tty remote_host tmux_target :
  dom (build_state session_id cwd event pid tty remote_host tmux_target) = base_fields.
Proof.
  unfold build_state, base_fields.
  rewrite !dom_insert_L, dom_empty_L. set_solver.
Qed.

Lemma dom_fold_copy src extras (m : gmap string json) :
  dom (fold_left (Table.copy src) extras m) = dom m ∪ Table.copied src extras.
Proof.
  revert m. induction extras as [|x extras IH]; intros m; unfold Table.copied; simpl.
  - set_solver.
  - rewrite IH. unfold Table.copy, Table.copied.
    rewrite filter_cons. destruct (src x) as [v|] eqn:Hx.
    + rewrite decide_True by eauto. rewrite dom_insert_L. simpl. set_solver.
    + rewrite decide_False by (intros [? ?]; discriminate). set_solver.
Qed.

Lemma lookup_fold_copy_ne src extras (m : gmap string json) k :
  (forall x, Table.key x <> k) ->
  fold_left (Table.copy src) extras m !! k = m !! k.
Proof.
  intros Hk. revert m. induction extras as [|x extras IH]; intros m; simpl; [done|].
  rewrite IH. unfold Table.copy. destruct (src x); [|done].
  by rewrite lookup_insert_ne.
Qed.

(** ** The classifier against the table *)

Lemma classify_expected data event tool_input state :
  tool_input = dict_get_default data "tool_input" (JObj ∅) ->
  classify data event tool_input state =
  Table.expected (Table.source data) state
    (Table.lookup event (dict_get data "notification_type")).
Proof.
  intros ->. unfold classify, Table.lookup.
  destruct event as [| | | |tag| |]; try reflexivity.
  rewrite !eq_str_JStr.
  case_tag tag "UserPromptSubmit"; [reflexivity|].
  case_tag tag "PreToolUse".
  { simpl. unfold Table.copy at 1, with_tool_use_id. simpl.
    by destruct (truthy (dict_get data "tool_use_id")). }
  case_tag tag "PostToolUse".
  { simpl. unfold Table.copy at 1, with_tool_use_id. simpl.
    by destruct (truthy (dict_get data "tool_use_id")). }
  case_tag tag "PermissionRequest"; [reflexivity|].
  case_tag tag "Notification".
  { unfold Table.notification_row.
    change (String.eqb "Notification" "Notification") with true. cbv iota.
    destruct (eq_str (dict_get data "notification_type") "permission_prompt");
      [reflexivity|].
    by destruct (eq_str (dict_get data "notification_type") "idle_prompt"). }
  case_tag tag "Stop"; [reflexivity|].
  case_tag tag "SubagentStop"; [reflexivity|].
  case_tag tag "SessionStart"; [reflexivity|].
  case_tag tag "SessionEnd"; [reflexivity|].
  case_tag tag "PreCompact"; [reflexivity|].
  simpl. by rewrite E, E0, E1, E2, E4, E5, E6, E7, E8.
Qed.

Lemma assoc_in_rows tag l r : Table.assoc tag l = Some r -> r ∈ l.*2.
Proof.
  induction l as [|[t r'] l IH]; simpl; [discriminate|].
  destruct (String.eqb tag t).
  - intros [= ->]. by left.
  - intros H. right. by apply IH.
Qed.

Lemma lookup_in_rows event notification_type :
  Table.lookup event notification_type ∈ all_rows.
Proof.
  unfold Table.lookup, all_rows.
  destruct event as [| | | |tag| |]; try (right; left).
  destruct (String.eqb tag "Notification").
  - unfold Table.notification_row.
    destruct (eq_str notification_type "permission_prompt"); [left|].
    destruct (eq_str notification_type "idle_prompt").
    + do 2 right. left.
    + do 3 right. left.
  - destruct (Table.assoc tag Table.rows) as [r|] eqn:Hr.
    + do 4 apply list_elem_of_further. by eapply assoc_in_rows.
    + right. left.
Qed.

Lemma all_rows_ok : Forall row_ok all_rows.
Proof. by apply (bool_decide_unpack _). Qed.

Lemma lookup_row_ok event notification_type :
  row_ok (Table.lookup event notification_type).
Proof.
  eapply Forall_forall; [apply all_rows_ok | apply lookup_in_rows].
Qed.

Lemma key_inj x y : Table.key x = Table.key y -> x = y.
Proof. by destruct x, y. Qed.

Lemma key_not_status x : Table.key x <> "status".
Proof. by destruct x. Qed.

Lemma key_not_base x : Table.key x ∉ base_fields.
Proof. destruct x; by apply (bool_decide_unpack _). Qed.

Lemma lookup_fold_copy_notin src extras (m : gmap string json) x :
  x ∉ extras ->
  fold_left (Table.copy src) extras m !! Table.key x = m !! Table.key x.
Proof.
  revert m. induction extras as [|y extras IH]; intros m Hx; simpl; [done|].
  apply not_elem_of_cons in Hx as [Hxy Hx].
  rewrite IH by done. unfold Table.copy. destruct (src y); [|done].
  rewrite lookup_insert_ne; [done|]. intros Hk. by apply key_inj in Hk.
Qed.

Lemma lookup_fold_copy src extras (m : gmap string json) x :
  NoDup extras -> x ∈ extras ->
  fold_left (Table.copy src) extras m !! Table.key x =
  match src x with
  | Some v => Some v
  | None => m !! Table.key x
  end.
Proof.
  intros Hnd. revert m. induction Hnd as [|y extras Hy Hnd IH]; intros m Hx.
  - by apply elem_of_nil in Hx.
  - simpl. apply elem_of_cons in Hx as [->|Hx].
    + rewrite lookup_fold_copy_notin by done. unfold Table.copy.
      destruct (src y); [by rewrite lookup_insert_eq | done].
    + rewrite IH by done. destruct (src x); [done|].
      unfold Table.copy. destruct (src y); [|done].
      rewrite lookup_insert_ne; [done|].
      intros Hk. apply key_inj in Hk. by subst.
Qed.

(** ** Section 4.2: the event classifier *)

Example row_of_PreToolUse :
  Table.lookup (JStr "PreToolUse") JNull
  = Table.Status "running_tool" [Table.Tool; Table.ToolInput; Table.ToolUseId].
Proof. reflexivity. Qed.

Example row_of_idle_prompt :
  Table.lookup (JStr "Notification") (JStr "idle_prompt")
  = Table.Status "waiting_for_input" [Table.NotificationType; Table.Message].
Proof. reflexivity. Qed.

Example row_of_permission_prompt :
  Table.lookup (JStr "Notification") (JStr "permission_prompt") = Table.NoRecord.
Proof. reflexivity. Qed.

Example row_of_other_tag :
  Table.lookup (JStr "SomethingElse") JNull = Table.Status "unknown" [].
Proof. reflexivity. Qed.

(** C1, as amended.  For every input document and ambient context, the
    classifier does what the row of the event tag says (the ten recognised
    tags, [Notification] split by [notification_type], and the last row for
    any other tag): no record for a suppressed notification; otherwise a
    record whose [status] is the row's, in which each field the row lists
    holds the value taken from the input, and whose fields are the seven
    base fields, [status] and the listed fields, no others.  [tool_use_id]
    is copied when the input holds a truthy one and left out otherwise. *)
Theorem classify_follows_table (data : gmap string json) (pid : Z)
    (tty remote_host tmux_target : option string) :
  let event := dict_get_default data "hook_event_name" (JStr "") in
  let tool_input := dict_get_default data "tool_input" (JObj ∅) in
  let state :=
    build_state (dict_get_default data "session_id" (JStr "unknown"))
      (dict_get_default data "cwd" (JStr "")) event pid tty remote_host tmux_target in
  match Table.lookup event (dict_get data "notification_type") with
  | Table.NoRecord => classify data event tool_input state = Suppressed
  | Table.Status status extras =>
      exists st,
        classify data event tool_input state = Record_ st
        /\ st !! "status" = Some (JStr status)
        /\ Forall (fun x => st !! Table.key x = Table.source data x) extras
        /\ dom st = base_fields ∪ {["status"]} ∪ Table.copied (Table.source data) extras
  end.
Proof.
  intros event tool_input state.
  pose proof (classify_expected data event tool_input state eq_refl) as Hc.
  pose proof (lookup_row_ok event (dict_get data "notification_type")) as Hok.
  destruct (Table.lookup event (dict_get data "notification_type"))
    as [|status extras]; [exact Hc|].
  destruct Hok as [Hnd _]. simpl in Hc.
  eexists. split; [exact Hc|]. split; [|split].
  - rewrite lookup_fold_copy_ne by apply key_not_status.
    apply lookup_insert_eq.
  - apply Forall_forall. intros x Hx.
    rewrite lookup_fold_copy by done.
    destruct (Table.source data x) as [v|]; [done|].
    rewrite lookup_insert_ne by (apply not_eq_sym, key_not_status).
    apply not_elem_of_dom. unfold state. rewrite dom_build_state.
    apply key_not_base.
  - rewrite dom_fold_copy, dom_insert_L. unfold state.
    rewrite dom_build_state. set_solver.
Qed.

(** C1, as worded, fails: a [PreToolUse] document whose [tool_use_id] is
    present and empty gets a record without [tool_use_id], where the row
    lists the field for every document that has the key. *)
Lemma tool_use_id_present_but_not_copied :
  let data : gmap string json :=
    {[ "hook_event_name" := JStr "PreToolUse"; "tool_use_id" := JStr "" ]} in
  let state := build_state (JStr "unknown") (JStr "") (JStr "PreToolUse") 1 None None None in
  Table.lookup (JStr "PreToolUse") JNull
    = Table.Status "running_tool" [Table.Tool; Table.ToolInput; Table.ToolUseId]
  /\ Table.source_as_worded data Table.ToolUseId = Some (JStr "")
  /\ (exists st,
       classify data (JStr "PreToolUse") (JObj ∅) state = Record_ st
       /\ st !! "tool_use_id" = None)
  /\ classify data (JStr "PreToolUse") (JObj ∅) state
     <> Table.expected (Table.source_as_worded data) state
          (Table.lookup (JStr "PreToolUse") JNull).
Proof.
  intros data state. split; [reflexivity|]. split; [reflexivity|]. split.
  - eexists. split; [reflexivity|]. by vm_compute.
  - intros H.
    apply (f_equal (fun c => match c with
                             | Record_ m => m !! "tool_use_id"
                             | Suppressed => None
                             end)) in H.
    vm_compute in H. discriminate.
Qed.

(** ** Section 4.4: the decision translator *)

Lemma directive_hook_output d : directive (hook_output d) = Some (JObj d).
Proof.
  unfold directive, hook_output.
  rewrite lookup_singleton_eq. apply lookup_insert_eq.
Qed.

Lemma translate_falsy response w t :
  truthy response = false -> translate response w t = (Exit 0, t).
Proof. intros H. unfold translate. rewrite H. reflexivity. Qed.

Lemma translate_dict (reply : gmap string json) w t :
  truthy (JObj reply) = true ->
  translate (JObj reply) w t =
    let decision := dict_get_default reply "decision" (JStr "ask") in
    let reason := dict_get_default reply "reason" (JStr "") in
    if eq_str decision "allow" then (Exit 0, (t ++ [EvPrint output_allow])%list)
    else if eq_str decision "deny"
         then (Exit 0, (t ++ [EvPrint (output_deny reason)])%list)
         else (Exit 0, t).
Proof.
  intros H. unfold translate. rewrite H. step_M. cbv zeta.
  destruct (eq_str _ "allow"); [reflexivity|].
  by destruct (eq_str _ "deny").
Qed.

(** ** The driver *)

Lemma main_parsed w t v : stdin_load w = Ok v -> main w t = main_body v w t.
Proof. intros H. unfold main. step_M. by rewrite H. Qed.

Lemma main_load_fails w t e :
  stdin_load w = Fails e ->
  main w t = (if is_JSONDecodeError e then Exit 1 else Raise e, t).
Proof. intros H. unfold main. step_M. rewrite H. by destruct e. Qed.

Lemma main_body_dict w t data :
  main_body (JObj data) w t =
  match record_of w data with
  | Suppressed => (Exit 0, t)
  | Record_ state =>
      if eq_str (dict_get_default data "hook_event_name" (JStr "")) "PermissionRequest"
      then
        match send_event state w t with
        | (Ret response, t') => translate response w t'
        | (Raise e, t') => (Raise e, t')
        | (Exit code, t') => (Exit code, t')
        end
      else
        match send_event state w t with
        | (Ret _, t') => (Ret tt, t')
        | (Raise e, t') => (Raise e, t')
        | (Exit code, t') => (Exit code, t')
        end
  end.
Proof.
  unfold main_body, record_of, initial_state. step_M. cbv zeta.
  destruct (classify _ _ _ _); [reflexivity|].
  by destruct (eq_str _ "PermissionRequest").
Qed.

Lemma main_body_not_dict w t v :
  (forall d, v <> JObj d) -> main_body v w t = (Raise AttributeError, t).
Proof. intros H. destruct v; try reflexivity. by destruct (H m). Qed.

Lemma record_of_request w data :
  data !! "hook_event_name" = Some (JStr "PermissionRequest") ->
  record_of w data = Record_ (request_state w data).
Proof.
  intros H. unfold record_of, request_state, dict_get_default at 1. by rewrite H.
Qed.

Lemma run_request w data :
  stdin_load w = Ok (JObj data) ->
  data !! "hook_event_name" = Some (JStr "PermissionRequest") ->
  run w =
  match send_event (request_state w data) w [] with
  | (Ret response, t') => translate response w t'
  | (Raise e, t') => (Raise e, t')
  | (Exit code, t') => (Exit code, t')
  end.
Proof.
  intros Hin Hev. unfold run. rewrite (main_parsed _ _ _ Hin), main_body_dict.
  rewrite (record_of_request _ _ Hev). unfold dict_get_default. by rewrite Hev.
Qed.

(** ** The transport: what [get_socket] and [send_event] do, step by step *)

Lemma get_socket_unix w t :
  opt_truthy (environ w !! "CLAUDE_ISLAND_TCP") = false ->
  get_socket w t =
    (match connect_outcome w (UnixAddr SOCKET_PATH) with
     | None => Ret tt
     | Some e => Raise e
     end,
     (t ++ [EvSocket AF_UNIX; EvSetTimeout TIMEOUT_SECONDS;
            EvConnect (UnixAddr SOCKET_PATH)])%list).
Proof.
  intros H. unfold get_socket. step_M. rewrite H.
  rewrite <- !app_assoc. simpl.
  by destruct (connect_outcome w (UnixAddr SOCKET_PATH)).
Qed.

Lemma get_socket_tcp w t target host port :
  environ w !! "CLAUDE_ISLAND_TCP" = Some target ->
  target <> "" ->
  (if Str.has_colon target
   then exists port_str,
       Str.rsplit_colon target = Some (host, port_str) /\ py_int w port_str = Some port
   else host = "localhost" /\ py_int w target = Some port) ->
  get_socket w t =
    (match connect_outcome w (TcpAddr host port) with
     | None => Ret tt
     | Some e => Raise e
     end,
     (t ++ [EvSocket AF_INET; EvSetTimeout TIMEOUT_SECONDS;
            EvConnect (TcpAddr host port)])%list).
Proof.
  intros Henv Hne Hsplit. unfold get_socket. step_M. rewrite Henv.
  assert (opt_truthy (Some target) = true) as ->.
  { unfold opt_truthy. simpl. apply negb_true_iff. by apply String.eqb_neq. }
  simpl. destruct (Str.has_colon target).
  - destruct Hsplit as (port_str & -> & ->). simpl.
    rewrite <- !app_assoc. simpl. by destruct (connect_outcome w _).
  - destruct Hsplit as (-> & ->). simpl.
    rewrite <- !app_assoc. simpl. by destruct (connect_outcome w _).
Qed.

Lemma get_socket_bad_port w t target :
  environ w !! "CLAUDE_ISLAND_TCP" = Some target ->
  target <> "" ->
  (if Str.has_colon target
   then exists host port_str,
       Str.rsplit_colon target = Some (host, port_str) /\ py_int w port_str = None
   else py_int w target = None) ->
  get_socket w t = (Raise ValueError, t).
Proof.
  intros Henv Hne Hsplit. unfold get_socket. step_M. rewrite Henv.
  assert (opt_truthy (Some target) = true) as ->.
  { unfold opt_truthy. simpl. apply negb_true_iff. by apply String.eqb_neq. }
  simpl. destruct (Str.has_colon target).
  - by destruct Hsplit as (host & port_str & -> & ->).
  - by rewrite Hsplit.
Qed.

Lemma descriptor_open_from_app b t1 t2 :
  descriptor_open_from b (t1 ++ t2)
  = descriptor_open_from (descriptor_open_from b t1) t2.
Proof.
  revert b. induction t1 as [|ev t1 IH]; intros b; [done|].
  destruct ev; simpl; apply IH.
Qed.

Lemma descriptor_open_app t1 t2 :
  descriptor_open (t1 ++ t2) = descriptor_open_from (descriptor_open t1) t2.
Proof. apply descriptor_open_from_app. Qed.

(** The events of [get_socket]: none when the port does not read, else the
    three of one connection attempt, the timeout set before connecting. *)
Lemma get_socket_shape w t :
  get_socket w t = (Raise ValueError, t)
  \/ exists fam a,
      get_socket w t =
        (match connect_outcome w a with None => Ret tt | Some e => Raise e end,
         (t ++ [EvSocket fam; EvSetTimeout TIMEOUT_SECONDS; EvConnect a])%list).
Proof.
  destruct (opt_truthy (environ w !! "CLAUDE_ISLAND_TCP")) eqn:Htcp.
  - unfold get_socket. step_M. rewrite Htcp.
    set (target := default "" (environ w !! "CLAUDE_ISLAND_TCP")).
    destruct (Str.has_colon target).
    + destruct (Str.rsplit_colon target) as [[host port_str]|]; [|by left].
      destruct (py_int w port_str) as [port|]; [|by left].
      right. exists AF_INET, (TcpAddr host port). simpl.
      rewrite <- !app_assoc. simpl. by destruct (connect_outcome w _).
    + destruct (py_int w target) as [port|]; [|by left].
      right. exists AF_INET, (TcpAddr "localhost" port). simpl.
      rewrite <- !app_assoc. simpl. by destruct (connect_outcome w _).
  - right. exists AF_UNIX, (UnixAddr SOCKET_PATH). by apply get_socket_unix.
Qed.

(** [send_event], call by call.  The socket is open from [get_socket] on
    until [sock.close()]. *)
Lemma send_event_steps state w t :
  send_event state w t =
  match get_socket w t with
  | (Exit code, t1) => (Exit code, t1)
  | (Raise e, t1) =>
      if send_event_catches e
      then (Ret JNull, if descriptor_open t1 then (t1 ++ [EvDealloc])%list else t1)
      else (Raise e, t1)
  | (Ret _, t1) =>
      match sendall_outcome w (JObj state) with
      | Some e =>
          dropped (absorbed e, (t1 ++ [EvSendAll (JObj state)])%list)
      | None =>
          if eq_str (dict_get state "status") "waiting_for_approval" then
            match recv_outcome w 4096 with
            | Fails e =>
                dropped (absorbed e,
                         (t1 ++ [EvSendAll (JObj state); EvRecv 4096])%list)
            | Ok response =>
                (if nonempty response
                 then match loads_decode w response with
                      | Ok v => Ret v
                      | Fails e => absorbed e
                      end
                 else Ret JNull,
                 (t1 ++ [EvSendAll (JObj state); EvRecv 4096; EvClose])%list)
            end
          else (Ret JNull, (t1 ++ [EvSendAll (JObj state); EvClose])%list)
      end
  end.
Proof.
  unfold send_event, drop_socket, absorbed. step_M.
  destruct (get_socket w t) as [[[]|e|code] t1]; [|by destruct (send_event_catches e)|done].
  destruct (sendall_outcome w (JObj state)) as [e|];
    [by destruct (send_event_catches e)|].
  destruct (eq_str (dict_get state "status") "waiting_for_approval").
  - destruct (recv_outcome w 4096) as [response|e];
      [|rewrite <- !app_assoc; by destruct (send_event_catches e)].
    rewrite <- !app_assoc. simpl.
    destruct (nonempty response);
      [|unfold dropped; by rewrite descriptor_open_app].
    destruct (loads_decode w response) as [v|e];
      [unfold dropped; by rewrite descriptor_open_app|].
    destruct (send_event_catches e); [|done].
    unfold dropped. by rewrite descriptor_open_app.
  - rewrite <- !app_assoc. simpl. unfold dropped. by rewrite descriptor_open_app.
Qed.

(** The cases of [send_event] on a fresh trace, each with its result and
    its events worked out. *)
Ltac send_event_cases state w :=
  rewrite (send_event_steps state w);
  let H := fresh "Hsock" in
  destruct (get_socket_shape w []) as [H|(?fam & ?a & H)]; rewrite H; clear H;
  [| destruct (connect_outcome w _) as [?e|] eqn:?Hconn;
     [ destruct (send_event_catches _) eqn:?Hcaught
     | destruct (sendall_outcome w (JObj state)) as [?e|] eqn:?Hsent;
       [ unfold absorbed; destruct (send_event_catches _) eqn:?Hcaught
       | destruct (eq_str (dict_get state "status") "waiting_for_approval") eqn:?Hwait;
         [ destruct (recv_outcome w 4096) as [?response|?e] eqn:?Hrecv;
           [ destruct (nonempty _) eqn:?Hbytes;
             [ destruct (loads_decode w _) as [?v|?e] eqn:?Hloads;
               [| unfold absorbed; destruct (send_event_catches _) eqn:?Hcaught ]
             | ]
           | unfold absorbed; destruct (send_event_catches _) eqn:?Hcaught ]
         | ]]]];
  simpl.




Lemma get_socket_connected w t1 :
  get_socket w [] = (Ret tt, t1) ->
  exists fam a,
    t1 = [EvSocket fam; EvSetTimeout TIMEOUT_SECONDS; EvConnect a]
    /\ connect_outcome w a = None.
Proof.
  intros H. destruct (get_socket_shape w []) as [H'|(fam & a & H')];
    rewrite H' in H; [discriminate|].
  exists fam, a. destruct (connect_outcome w a); [discriminate|].
  by injection H as <-.
Qed.

(** ** Section 4.4 on the permission path *)

Lemma translate_allow (reply : gmap string json) w t :
  reply !! "decision" = Some (JStr "allow") ->
  translate (JObj reply) w t = (Exit 0, (t ++ [EvPrint output_allow])%list).
Proof.
  intros H. rewrite translate_dict by by eapply truthy_JObj_lookup.
  unfold dict_get_default. by rewrite H.
Qed.

Lemma translate_deny (reply : gmap string json) w t :
  reply !! "decision" = Some (JStr "deny") ->
  translate (JObj reply) w t =
    (Exit 0,
     (t ++ [EvPrint (output_deny (dict_get_default reply "reason" (JStr "")))])%list).
Proof.
  intros H. rewrite translate_dict by by eapply truthy_JObj_lookup.
  unfold dict_get_default at 1 2. by rewrite H.
Qed.

Lemma translate_other (reply : gmap string json) w t :
  dict_get_default reply "decision" (JStr "ask") <> JStr "allow" ->
  dict_get_default reply "decision" (JStr "ask") <> JStr "deny" ->
  translate (JObj reply) w t = (Exit 0, t).
Proof.
  intros Ha Hd. destruct (truthy (JObj reply)) eqn:Ht.
  - rewrite translate_dict by done. cbv zeta.
    destruct (eq_str _ "allow") eqn:Ea; [by apply eq_str_true in Ea|].
    destruct (eq_str _ "deny") eqn:Ed; [by apply eq_str_true in Ed|done].
  - by apply translate_falsy.
Qed.

Lemma send_event_silent state w : stdout_of (send_event state w []).2 = [].
Proof. send_event_cases state w; done. Qed.

Lemma said_intro w (t : list io_event) doc :
  stdout_of t = [] ->
  run w = (Exit 0, (t ++ [EvPrint doc])%list) ->
  said w t doc.
Proof.
  intros Ht Hrun. unfold said. rewrite Hrun. split; [done|]. split; [done|].
  unfold stdout_of in *. simpl. by rewrite omap_app, Ht.
Qed.

Lemma deferred_intro w (t : list io_event) :
  stdout_of t = [] -> run w = (Exit 0, t) -> deferred w t.
Proof. intros Ht Hrun. unfold deferred. by rewrite Hrun. Qed.

Lemma directive_output_deny reason :
  directive (output_deny reason) = Some (deny_directive (py_or reason (JStr DENIED_DEFAULT))).
Proof. apply directive_hook_output. Qed.

(** C2, as amended.  On the permission path, when [send_event] hands back
    [response] after the events [t]: a reply whose decision is "allow" puts
    one document on standard output, with directive behavior=allow, and the
    process exits with status 0; a reply whose decision is "deny" with a
    truthy (non-empty) reason puts one document with behavior=deny and that
    reason as message; "deny" without a reason puts the fixed message; no
    reply, an empty reply object, or a decision (default "ask") that is
    neither "allow" nor "deny" puts nothing and exits with status 0. *)
Theorem permission_reply_translated (w : World) (data : gmap string json)
    (response : json) (t : list io_event) :
  stdin_load w = Ok (JObj data) ->
  data !! "hook_event_name" = Some (JStr "PermissionRequest") ->
  send_event (request_state w data) w [] = (Ret response, t) ->
  (forall reply, response = JObj reply ->
     reply !! "decision" = Some (JStr "allow") ->
     exists doc, said w t doc /\ directive doc = Some allow_directive)
  /\ (forall reply reason, response = JObj reply ->
     reply !! "decision" = Some (JStr "deny") ->
     reply !! "reason" = Some reason -> truthy reason = true ->
     exists doc, said w t doc /\ directive doc = Some (deny_directive reason))
  /\ (forall reply, response = JObj reply ->
     reply !! "decision" = Some (JStr "deny") ->
     reply !! "reason" = None ->
     exists doc, said w t doc
       /\ directive doc = Some (deny_directive (JStr DENIED_DEFAULT)))
  /\ (forall reply, response = JObj reply ->
     dict_get_default reply "decision" (JStr "ask") <> JStr "allow" ->
     dict_get_default reply "decision" (JStr "ask") <> JStr "deny" ->
     deferred w t)
  /\ (response = JNull \/ response = JObj ∅ -> deferred w t).
Proof.
  intros Hin Hev Hsend.
  pose proof (send_event_silent (request_state w data) w) as Hquiet.
  rewrite Hsend in Hquiet. simpl in Hquiet.
  pose proof (run_request _ _ Hin Hev) as Hrun. rewrite Hsend in Hrun.
  split; [|split; [|split; [|split]]].
  - intros reply -> Hd. eexists. split.
    + apply said_intro; [done|]. rewrite Hrun. by apply translate_allow.
    + apply directive_hook_output.
  - intros reply reason -> Hd Hr Ht. eexists. split.
    + apply said_intro; [done|]. rewrite Hrun. by apply translate_deny.
    + rewrite directive_output_deny. unfold dict_get_default, py_or.
      by rewrite Hr; simpl; rewrite Ht.
  - intros reply -> Hd Hr. eexists. split.
    + apply said_intro; [done|]. rewrite Hrun. by apply translate_deny.
    + rewrite directive_output_deny. unfold dict_get_default. by rewrite Hr.
  - intros reply -> Ha Hd. apply deferred_intro; [done|].
    rewrite Hrun. by apply translate_other.
  - intros Hnone. apply deferred_intro; [done|]. rewrite Hrun.
    destruct Hnone as [-> | ->]; by apply translate_falsy.
Qed.

Lemma permission_reply_translated_witness :
  (exists doc,
     said (asked_world {[ "decision" := JStr "allow" ]})
       (asked_trace (asked_world {[ "decision" := JStr "allow" ]})) doc
     /\ directive doc = Some allow_directive)
  /\ (exists doc,
     said (asked_world {[ "decision" := JStr "deny"; "reason" := JStr "no" ]})
       (asked_trace (asked_world {[ "decision" := JStr "deny"; "reason" := JStr "no" ]}))
       doc
     /\ directive doc = Some (deny_directive (JStr "no")))
  /\ deferred (asked_world ∅) (asked_trace (asked_world ∅)).
Proof.
  split; [|split].
  - set (reply := {[ "decision" := JStr "allow" ]} : gmap string json).
    destruct (permission_reply_translated (asked_world reply) request_doc
                (JObj reply) (asked_trace (asked_world reply)))
      as (Hallow & _); [reflexivity | reflexivity | by vm_compute |].
    apply (Hallow reply); reflexivity.
  - set (reply := {[ "decision" := JStr "deny"; "reason" := JStr "no" ]}
           : gmap string json).
    destruct (permission_reply_translated (asked_world reply) request_doc
                (JObj reply) (asked_trace (asked_world reply)))
      as (_ & Hdeny & _); [reflexivity | reflexivity | by vm_compute |].
    apply (Hdeny reply (JStr "no")); reflexivity.
  - destruct (permission_reply_translated (asked_world ∅) request_doc
                (JObj ∅) (asked_trace (asked_world ∅)))
      as (_ & _ & _ & _ & Hnone); [reflexivity | reflexivity | by vm_compute |].
    apply Hnone. by right.
Defined.

(** C2, as worded, fails: the reply [{"decision": "deny", "reason": ""}]
    has a reason, and the message of the directive is not that reason but
    the fixed string. *)
Lemma deny_reason_present_but_replaced :
  let reply : gmap string json := {[ "decision" := JStr "deny"; "reason" := JStr "" ]} in
  let w := asked_world reply in
  reply !! "decision" = Some (JStr "deny")
  /\ reply !! "reason" = Some (JStr "")
  /\ send_event (request_state w request_doc) w [] = (Ret (JObj reply), asked_trace w)
  /\ run w = (Exit 0, (asked_trace w ++ [EvPrint (output_deny (JStr ""))])%list)
  /\ directive (output_deny (JStr "")) = Some (deny_directive (JStr DENIED_DEFAULT))
  /\ deny_directive (JStr DENIED_DEFAULT) <> deny_directive (JStr "").
Proof.
  intros reply w. repeat split; by vm_compute.
Qed.

(** C10.  On the permission path, a "deny" reply whose reason is present
    and is the empty string gets the message "Denied by user via
    ClaudeIsland", as a "deny" reply without a reason does; and whatever the
    reason of a "deny" reply, the message of the directive is not empty. *)
Theorem empty_reason_gets_default (w : World) (data reply : gmap string json)
    (t : list io_event) :
  stdin_load w = Ok (JObj data) ->
  data !! "hook_event_name" = Some (JStr "PermissionRequest") ->
  send_event (request_state w data) w [] = (Ret (JObj reply), t) ->
  reply !! "decision" = Some (JStr "deny") ->
  exists doc message,
    said w t doc
    /\ directive doc = Some (deny_directive message)
    /\ (reply !! "reason" = Some (JStr "") \/ reply !! "reason" = None ->
        message = JStr DENIED_DEFAULT)
    /\ message <> JStr ""
    /\ truthy message = true.
Proof.
  intros Hin Hev Hsend Hd.
  pose proof (send_event_silent (request_state w data) w) as Hquiet.
  rewrite Hsend in Hquiet. simpl in Hquiet.
  pose proof (run_request _ _ Hin Hev) as Hrun. rewrite Hsend in Hrun.
  eexists _, _. split.
  { apply said_intro; [done|]. rewrite Hrun. by apply translate_deny. }
  split; [apply directive_output_deny|].
  unfold py_or, dict_get_default. split; [|split].
  - by intros [-> | ->].
  - destruct (truthy (default (JStr "") (reply !! "reason"))) eqn:Ht; [|done].
    intros Hm. by rewrite Hm in Ht.
  - by destruct (truthy (default (JStr "") (reply !! "reason"))) eqn:Ht.
Qed.

Lemma empty_reason_gets_default_witness :
  let reply : gmap string json := {[ "decision" := JStr "deny"; "reason" := JStr "" ]} in
  exists doc,
    said (asked_world reply) (asked_trace (asked_world reply)) doc
    /\ directive doc = Some (deny_directive (JStr DENIED_DEFAULT)).
Proof.
  intros reply.
  destruct (empty_reason_gets_default (asked_world reply) request_doc reply
              (asked_trace (asked_world reply)))
    as (doc & message & Hrun & Hdir & Hdefault & _);
    [reflexivity | reflexivity | by vm_compute | reflexivity |].
  exists doc. split; [exact Hrun|].
  rewrite Hdir, Hdefault; [reflexivity|]. left. reflexivity.
Defined.

(** ** Section 4.5: the driver on malformed input and suppressed events *)

(** C6.  When standard input does not parse, the process exits with
    status 1 and no call at all has left it, so no connection was attempted
    (a [JSONDecodeError] goes through [sys.exit(1)], anything else
    [json.load] raises ends the process with a traceback); when it parses,
    the [except] branch is not taken and [main] goes on with the parsed
    document. *)
Theorem stdin_parse_outcome (w : World) :
  match stdin_load w with
  | Fails e =>
      run w = (if is_JSONDecodeError e then Exit 1 else Raise e, [])
      /\ exit_status (run w).1 = 1
      /\ network_of (run w).2 = []
  | Ok data => run w = main_body data w []
  end.
Proof.
  unfold run. destruct (stdin_load w) as [data|e] eqn:Hin.
  - by apply main_parsed.
  - rewrite (main_load_fails _ _ _ Hin). by destruct e.
Qed.

(** C5.  A [Notification] whose [notification_type] is [permission_prompt]
    makes the process exit with status 0 with an empty trace: no socket is
    opened, nothing is connected, nothing is written. *)
Theorem permission_prompt_suppressed (w : World) (data : gmap string json) :
  stdin_load w = Ok (JObj data) ->
  data !! "hook_event_name" = Some (JStr "Notification") ->
  data !! "notification_type" = Some (JStr "permission_prompt") ->
  run w = (Exit 0, [])
  /\ exit_status (run w).1 = 0
  /\ network_of (run w).2 = [].
Proof.
  intros Hin Hev Hnt.
  assert (run w = (Exit 0, [])) as ->; [|done].
  unfold run. rewrite (main_parsed _ _ _ Hin), main_body_dict.
  unfold record_of. rewrite classify_expected by done.
  unfold dict_get_default at 1, dict_get. by rewrite Hev, Hnt.
Qed.

Lemma permission_prompt_suppressed_witness :
  run (peer_world ∅ (Ok (JObj prompt_doc)) (Ok "") (Ok JNull)) = (Exit 0, []).
Proof.
  apply (permission_prompt_suppressed
           (peer_world ∅ (Ok (JObj prompt_doc)) (Ok "") (Ok JNull)) prompt_doc);
    reflexivity.
Defined.

(** ** Section 4.3: failures inside [send_event] *)

(** C3 fails on the code: with a port that is no number, [int] raises
    [ValueError], which line 119 does not name; [send_event] raises it to
    [main] and the process ends with a traceback, status 1, for an event
    whose standard input parsed. *)
Lemma malformed_port_escapes_send_event :
  environ bad_port_world !! "CLAUDE_ISLAND_TCP" = Some "localhost:abc"
  /\ Str.rsplit_colon "localhost:abc" = Some ("localhost", "abc")
  /\ Str.to_int "abc" = None
  /\ py_int bad_port_world "abc" = None
  /\ send_event_catches ValueError = false
  /\ (forall state, send_event state bad_port_world [] = (Raise ValueError, []))
  /\ run bad_port_world = (Raise ValueError, [])
  /\ exit_status (run bad_port_world).1 = 1.
Proof.
  repeat split; try by vm_compute.
Qed.




(** ** Section 4.1: the transport selector *)

Lemma rsplit_colon_none s : Str.has_colon s = false -> Str.rsplit_colon s = None.
Proof.
  induction s as [|c r IH]; simpl; [done|].
  intros [Hc Hr]%orb_false_iff. by rewrite (IH Hr), Hc.
Qed.

(** [rsplit] cuts at the last colon: what follows has none. *)
Lemma rsplit_colon_last s :
  Str.has_colon s = true ->
  exists host port_str,
    Str.rsplit_colon s = Some (host, port_str)
    /\ s = host ++ ":" ++ port_str
    /\ Str.has_colon port_str = false.
Proof.
  induction s as [|c r IH]; simpl; [done|].
  destruct (Str.has_colon r) eqn:Hr.
  - intros _. destruct (IH eq_refl) as (host & port_str & -> & -> & Hp).
    by exists (String c host), port_str.
  - rewrite orb_false_r. intros Hc. rewrite (rsplit_colon_none _ Hr), Hc.
    apply Ascii.eqb_eq in Hc as ->. by exists "", r.
Qed.

(** C7, as amended.  When [CLAUDE_ISLAND_TCP] is set to a non-empty value
    with a colon, the value is cut at its last colon into host and port;
    when it is non-empty without a colon, the whole value is the port and
    the host is [localhost]; in both cases, when [int] reads the port, the
    connection goes to that host and the port [int] gives.  When the variable
    is unset or empty, the connection goes to the fixed socket path.  In
    each case the timeout is set to 300 seconds before connecting. *)
Theorem transport_selection (w : World) :
  (forall target,
     environ w !! "CLAUDE_ISLAND_TCP" = Some target -> target <> "" ->
     Str.has_colon target = true ->
     exists host port_str,
       target = host ++ ":" ++ port_str
       /\ Str.has_colon port_str = false
       /\ forall port, py_int w port_str = Some port ->
            (get_socket w []).2
              = [EvSocket AF_INET; EvSetTimeout 300; EvConnect (TcpAddr host port)])
  /\ (forall target port,
     environ w !! "CLAUDE_ISLAND_TCP" = Some target -> target <> "" ->
     Str.has_colon target = false ->
     py_int w target = Some port ->
     (get_socket w []).2
       = [EvSocket AF_INET; EvSetTimeout 300; EvConnect (TcpAddr "localhost" port)])
  /\ (environ w !! "CLAUDE_ISLAND_TCP" = None
      \/ environ w !! "CLAUDE_ISLAND_TCP" = Some "" ->
     (get_socket w []).2
       = [EvSocket AF_UNIX; EvSetTimeout 300; EvConnect (UnixAddr SOCKET_PATH)]).
Proof.
  split; [|split].
  - intros target Henv Hne Hcolon.
    destruct (rsplit_colon_last _ Hcolon) as (host & port_str & Hsplit & Heq & Hlast).
    exists host, port_str. split; [done|]. split; [done|]. intros port Hport.
    rewrite (get_socket_tcp w [] target host port); [done..|].
    rewrite Hcolon. eauto.
  - intros target port Henv Hne Hcolon Hport.
    rewrite (get_socket_tcp w [] target "localhost" port); [done..|].
    by rewrite Hcolon.
  - intros Henv. rewrite get_socket_unix; [done|].
    by destruct Henv as [-> | ->].
Qed.

Lemma transport_selection_witness :
  (get_socket (tcp_world "9999") []).2
    = [EvSocket AF_INET; EvSetTimeout 300; EvConnect (TcpAddr "localhost" 9999)]
  /\ (exists host port_str,
        "host:9999" = host ++ ":" ++ port_str /\ Str.has_colon port_str = false)
  /\ (get_socket (peer_world ∅ (Ok (JObj stop_doc)) (Ok "") (Ok JNull)) []).2
    = [EvSocket AF_UNIX; EvSetTimeout 300; EvConnect (UnixAddr SOCKET_PATH)].
Proof.
  split; [|split].
  - destruct (transport_selection (tcp_world "9999")) as (_ & Hport & _).
    apply (Hport "9999" 9999); [reflexivity | discriminate | reflexivity | reflexivity].
  - destruct (transport_selection (tcp_world "host:9999")) as (Hsplit & _).
    destruct (Hsplit "host:9999") as (host & port_str & Heq & Hlast & _);
      [reflexivity | discriminate | reflexivity |].
    exists host, port_str. split; [exact Heq | exact Hlast].
  - destruct (transport_selection (peer_world ∅ (Ok (JObj stop_doc)) (Ok "") (Ok JNull)))
      as (_ & _ & Hunix).
    apply Hunix. left. reflexivity.
Defined.

Example int_of_port : Str.to_int "9999" = Some 9999.
Proof. reflexivity. Qed.

Example int_skips_blanks : Str.to_int " 80 " = Some 80.
Proof. reflexivity. Qed.

Example int_rejects_unit_separator :
  Str.to_int ("9999" ++ String (ascii_of_nat 31) "") = None
  /\ Str.strip ("9999" ++ String (ascii_of_nat 31) "") = "9999".
Proof. split; reflexivity. Qed.

Example host_and_port :
  (get_socket (tcp_world "host:9999") []).2
    = [EvSocket AF_INET; EvSetTimeout 300; EvConnect (TcpAddr "host" 9999)].
Proof. reflexivity. Qed.

(** C7, as worded, fails: [CLAUDE_ISLAND_TCP] set to the empty string is
    set and has no colon, and the connection goes to the socket path, not
    to a port on [localhost]. *)
Lemma empty_target_selects_unix_socket :
  environ (tcp_world "") !! "CLAUDE_ISLAND_TCP" = Some ""
  /\ Str.has_colon "" = false
  /\ (get_socket (tcp_world "") []).2
     = [EvSocket AF_UNIX; EvSetTimeout 300; EvConnect (UnixAddr SOCKET_PATH)]
  /\ existsb (fun ev => match ev with EvSocket AF_INET => true | _ => false end)
       (get_socket (tcp_world "") []).2 = false.
Proof. repeat split; by vm_compute. Qed.

(** ** Section 4.3: writes and reads of one exchange *)




(** ** Section 3: the records that go out *)

Lemma send_event_writes state w p :
  EvSendAll p ∈ (send_event state w []).2 -> p = JObj state.
Proof. send_event_cases state w; intros Hmem; in_trace Hmem; done. Qed.

Lemma translate_prints response w t ev :
  ev ∈ (translate response w t).2 -> ev ∈ t \/ exists doc, ev = EvPrint doc.
Proof.
  destruct (truthy response) eqn:Ht; [|rewrite translate_falsy by done; by left].
  destruct response as [| | | | | |reply];
    try (unfold translate; rewrite Ht; by left).
  rewrite translate_dict by done. cbv zeta.
  destruct (eq_str _ "allow").
  { simpl. intros [?|Hin]%elem_of_app; [by left|]. right.
    apply list_elem_of_singleton in Hin. eauto. }
  destruct (eq_str _ "deny"); [|by left].
  simpl. intros [?|Hin]%elem_of_app; [by left|]. right.
  apply list_elem_of_singleton in Hin. eauto.
Qed.

(** Whatever is written to the socket is the record of the event. *)
Lemma run_writes w p :
  EvSendAll p ∈ (run w).2 ->
  exists data st,
    stdin_load w = Ok (JObj data) /\ record_of w data = Record_ st /\ p = JObj st.
Proof.
  unfold run. destruct (stdin_load w) as [v|e] eqn:Hin.
  - rewrite (main_parsed _ _ _ Hin).
    destruct v as [| | | | | |data];
      try (simpl; intros H; by apply elem_of_nil in H).
    rewrite main_body_dict.
    destruct (record_of w data) as [|st] eqn:Hrec;
      [simpl; intros H; by apply elem_of_nil in H|].
    intros H. exists data, st. split; [done|]. split; [done|].
    apply (send_event_writes st w).
    destruct (eq_str _ "PermissionRequest");
      destruct (send_event st w []) as [[r|e|code] t'] eqn:Hs; simpl in *; try done.
    apply translate_prints in H as [H|[doc H]]; [done|discriminate].
  - rewrite (main_load_fails _ _ _ Hin). simpl.
    intros H. by apply elem_of_nil in H.
Qed.

Lemma lookup_build_state_context session_id cwd event pid tty remote_host tmux_target :
  let st := build_state session_id cwd event pid tty remote_host tmux_target in
  st !! "tty" = Some (of_opt_str tty)
  /\ st !! "remote_host" = Some (of_opt_str remote_host)
  /\ st !! "tmux_target" = Some (of_opt_str tmux_target).
Proof. unfold build_state. by simplify_map_eq. Qed.

Lemma key_not_context x :
  Table.key x <> "tty" /\ Table.key x <> "remote_host" /\ Table.key x <> "tmux_target".
Proof. by destruct x. Qed.

(** C9, as amended.  Every record written to the socket is the record of
    the event read from standard input and carries one [status], one of the
    eight the table names.  The event-specific fields are there only where
    the row of the event lists them: a field the row does not list is
    absent, and so is [tool_use_id] when the input holds no truthy one.
    [tty], [remote_host] and [tmux_target] are always there, and hold
    [null] when nothing was found; a listed [tool], [notification_type] or
    [message] that the input lacks holds [null] as well. *)
Theorem sent_record_fields (w : World) (payload : json) :
  EvSendAll payload ∈ (run w).2 ->
  exists data st status extras,
    stdin_load w = Ok (JObj data)
    /\ payload = JObj st
    /\ Table.lookup (dict_get_default data "hook_event_name" (JStr ""))
         (dict_get data "notification_type") = Table.Status status extras
    /\ status ∈ statuses
    /\ st !! "status" = Some (JStr status)
    /\ st !! "tty" = Some (of_opt_str (get_tty w))
    /\ st !! "remote_host"
       = Some (of_opt_str (environ w !! "CLAUDE_ISLAND_REMOTE_HOST"))
    /\ st !! "tmux_target"
       = Some (of_opt_str
                 (if opt_truthy (environ w !! "CLAUDE_ISLAND_REMOTE_HOST")
                  then get_tmux_target w else None))
    /\ Forall (fun x => st !! Table.key x = Table.source data x) extras
    /\ Forall (fun x => st !! Table.key x = None)
         (filter (fun x => x ∉ extras)
            [Table.Tool; Table.ToolInput; Table.ToolUseId;
             Table.NotificationType; Table.Message])
    /\ dom st = base_fields ∪ {["status"]} ∪ Table.copied (Table.source data) extras.
Proof.
  intros Hsent. apply run_writes in Hsent as (data & st & Hin & Hrec & ->).
  unfold record_of in Hrec. rewrite classify_expected in Hrec by done.
  pose proof (lookup_row_ok (dict_get_default data "hook_event_name" (JStr ""))
                (dict_get data "notification_type")) as Hok.
  destruct (Table.lookup _ _) as [|status extras] eqn:Hrow; [discriminate|].
  destruct Hok as [Hnd Hstatus]. injection Hrec as <-.
  pose proof (lookup_build_state_context
                (dict_get_default data "session_id" (JStr "unknown"))
                (dict_get_default data "cwd" (JStr ""))
                (dict_get_default data "hook_event_name" (JStr ""))
                (getppid w) (get_tty w) (environ w !! "CLAUDE_ISLAND_REMOTE_HOST")
                (if opt_truthy (environ w !! "CLAUDE_ISLAND_REMOTE_HOST")
                 then get_tmux_target w else None)) as (Htty & Hhost & Htmux).
  assert (forall x, Table.key x ∉ dom (<["status" := JStr status]> (initial_state w data)))
    as Hfresh.
  { intros x. unfold initial_state. rewrite dom_insert_L, dom_build_state.
    pose proof (key_not_status x). pose proof (key_not_base x). set_solver. }
  eexists data, _, status, extras. split; [done|]. split; [reflexivity|].
  split; [exact Hrow|]. split; [exact Hstatus|].
  repeat split.
  - rewrite lookup_fold_copy_ne by apply key_not_status. apply lookup_insert_eq.
  - rewrite lookup_fold_copy_ne by (intros x; apply key_not_context).
    by rewrite lookup_insert_ne.
  - rewrite lookup_fold_copy_ne by (intros x; apply key_not_context).
    by rewrite lookup_insert_ne.
  - rewrite lookup_fold_copy_ne by (intros x; apply key_not_context).
    by rewrite lookup_insert_ne.
  - apply Forall_forall. intros x Hx. rewrite lookup_fold_copy by done.
    destruct (Table.source data x); [done|]. by apply not_elem_of_dom.
  - apply Forall_forall. intros x [Hx _]%list_elem_of_filter.
    rewrite lookup_fold_copy_notin by done. by apply not_elem_of_dom.
  - rewrite dom_fold_copy, dom_insert_L. unfold initial_state.
    rewrite dom_build_state. set_solver.
Qed.

Lemma sent_record_fields_witness :
  exists st,
    JObj bare_record = JObj st
    /\ st !! "tty" = Some (of_opt_str (get_tty bare_world)).
Proof.
  destruct (sent_record_fields bare_world (JObj bare_record))
    as (data & st & status & extras & _ & Hst & _ & _ & _ & Htty & _).
  - vm_compute. do 3 right. left.
  - exists st. split; [exact Hst | exact Htty].
Defined.

(** C9, as worded, fails: the record of a [Stop] event in a session
    without terminal or remote host is sent with [tty], [remote_host] and
    [tmux_target] present and [null]; the record of a [Notification]
    without type or message is sent with both fields present and [null]. *)
Lemma absent_fields_sent_as_null :
  get_tty bare_world = None
  /\ environ bare_world !! "CLAUDE_ISLAND_REMOTE_HOST" = None
  /\ (run bare_world).2 !! 3%nat = Some (EvSendAll (JObj bare_record))
  /\ bare_record !! "tty" = Some JNull
  /\ bare_record !! "remote_host" = Some JNull
  /\ bare_record !! "tmux_target" = Some JNull
  /\ notice_doc !! "message" = None
  /\ exists st,
       (run notice_world).2 !! 3%nat = Some (EvSendAll (JObj st))
       /\ st !! "status" = Some (JStr "notification")
       /\ st !! "notification_type" = Some JNull
       /\ st !! "message" = Some JNull.
Proof.
  repeat split; try by vm_compute.
  eexists. split; [by vm_compute|]. repeat split; by vm_compute.
Qed.

(** * Further properties of the script *)

(** ** [get_socket] and the port *)

Lemma port_text_colon target host port_str :
  Str.rsplit_colon target = Some (host, port_str) -> port_text target = port_str.
Proof. intros H. unfold port_text. by rewrite H. Qed.

Lemma get_socket_port_unreadable w t :
  port_reads w = false -> get_socket w t = (Raise ValueError, t).
Proof.
  unfold port_reads. destruct (environ w !! "CLAUDE_ISLAND_TCP") as [target|] eqn:Henv;
    [|done].
  destruct (nonempty target) eqn:Hne; [|done].
  intros Hport. apply (get_socket_bad_port w t target Henv).
  { intros ->. discriminate. }
  destruct (Str.has_colon target) eqn:Hcolon.
  - destruct (rsplit_colon_last _ Hcolon) as (host & port_str & Hsplit & _).
    exists host, port_str. split; [done|].
    rewrite (port_text_colon _ _ _ Hsplit) in Hport.
    by destruct (py_int w port_str).
  - unfold port_text in Hport. rewrite (rsplit_colon_none _ Hcolon) in Hport.
    by destruct (py_int w target).
Qed.

Lemma get_socket_port_readable w t :
  port_reads w = true ->
  exists fam a,
    get_socket w t =
      (match connect_outcome w a with None => Ret tt | Some e => Raise e end,
       (t ++ [EvSocket fam; EvSetTimeout TIMEOUT_SECONDS; EvConnect a])%list).
Proof.
  intros Hport.
  destruct (opt_truthy (environ w !! "CLAUDE_ISLAND_TCP")) eqn:Htcp;
    [|exists AF_UNIX, (UnixAddr SOCKET_PATH); by apply get_socket_unix].
  unfold port_reads in Hport.
  destruct (environ w !! "CLAUDE_ISLAND_TCP") as [target|] eqn:Henv; [|done].
  assert (nonempty target = true) as Hne by done. rewrite Hne in Hport.
  assert (target <> "") as Hne' by (intros ->; discriminate).
  destruct (Str.has_colon target) eqn:Hcolon.
  - destruct (rsplit_colon_last _ Hcolon) as (host & port_str & Hsplit & _).
    rewrite (port_text_colon _ _ _ Hsplit) in Hport.
    destruct (py_int w port_str) as [port|] eqn:Hint; [|done].
    exists AF_INET, (TcpAddr host port).
    apply (get_socket_tcp w t target host port Henv Hne').
    rewrite Hcolon. eauto.
  - unfold port_text in Hport. rewrite (rsplit_colon_none _ Hcolon) in Hport.
    destruct (py_int w target) as [port|] eqn:Hint; [|done].
    exists AF_INET, (TcpAddr "localhost" port).
    apply (get_socket_tcp w t target "localhost" port Henv Hne').
    by rewrite Hcolon.
Qed.

(** ** [send_event]: what is absorbed, and the order of the socket calls *)





Lemma send_event_refused w state :
  port_reads w = true ->
  (forall a, exists e, connect_outcome w a = Some (OSError e)) ->
  exists fam a,
    send_event state w []
      = (Ret JNull,
         [EvSocket fam; EvSetTimeout TIMEOUT_SECONDS; EvConnect a; EvDealloc]).
Proof.
  intros Hport Hrefused. rewrite send_event_steps.
  destruct (get_socket_port_readable w [] Hport) as (fam & a & ->).
  destruct (Hrefused a) as [e ->]. by exists fam, a.
Qed.

(** X2.  When nothing answers (every [connect] fails with an [OSError])
    and the port reads as a number, every event that parses to an object
    ends the process with status 0, with nothing on standard output and
    nothing written to or read from a socket: on the permission path this
    is the deferral to the caller's own prompt. *)
Theorem unreachable_application_is_harmless (w : World) (data : gmap string json) :
  stdin_load w = Ok (JObj data) ->
  port_reads w = true ->
  (forall a, exists e, connect_outcome w a = Some (OSError e)) ->
  exit_status (run w).1 = 0
  /\ stdout_of (run w).2 = []
  /\ transfers (run w).2 = [].
Proof.
  intros Hin Hport Hrefused. unfold run.
  rewrite (main_parsed _ _ _ Hin), main_body_dict.
  destruct (record_of w data) as [|st]; [done|].
  destruct (send_event_refused w st Hport Hrefused) as (fam & a & ->).
  by destruct (eq_str _ "PermissionRequest").
Qed.

Lemma unreachable_application_is_harmless_witness :
  exit_status (run (offline_world ∅ (Ok (JObj request_doc)))).1 = 0
  /\ stdout_of (run (offline_world ∅ (Ok (JObj request_doc)))).2 = []
  /\ transfers (run (offline_world ∅ (Ok (JObj request_doc)))).2 = [].
Proof.
  apply (unreachable_application_is_harmless
           (offline_world ∅ (Ok (JObj request_doc))) request_doc).
  - reflexivity.
  - reflexivity.
  - intros a. exists ConnectionRefused. reflexivity.
Defined.

(** X3.  Whatever the peer and the operating system do, the socket calls
    of one [send_event] are an initial part of: socket, settimeout(300),
    connect, sendall of the record, recv(4096) for a
    [waiting_for_approval] record only, close.  No call is made twice or
    out of this order, nothing is read before the record is written, and
    nothing follows the close.  The only other event is the deallocation of
    a socket the calls left open, after the last of them. *)
Theorem send_event_follows_script (w : World) (state : gmap string json) :
  exists fam a calls,
    calls `prefix_of` exchange_script fam a (JObj state)
                        (eq_str (dict_get state "status") "waiting_for_approval")
    /\ ((send_event state w []).2 = calls
        \/ (send_event state w []).2 = (calls ++ [EvDealloc])%list).
Proof.
  assert (exists fam a,
            socket_calls (send_event state w []).2
            `prefix_of` exchange_script fam a (JObj state)
                          (eq_str (dict_get state "status") "waiting_for_approval")
            /\ ((send_event state w []).2 = socket_calls (send_event state w []).2
                \/ (send_event state w []).2
                   = (socket_calls (send_event state w []).2 ++ [EvDealloc])%list))
    as (fam & a & Hcalls & Htrace); [|by eauto].
  send_event_cases state w; unfold exchange_script; simpl;
    first [ exists AF_UNIX, (UnixAddr SOCKET_PATH); split; [apply prefix_nil | by left]
          | exists fam, a; split; [by eexists | by left]
          | exists fam, a; split; [by eexists | by right] ].
Qed.

(** X4.  On an established connection, once [sendall] has returned and,
    for a [waiting_for_approval] record, [recv] has returned, the socket
    is closed, once, and the close is the last socket call: the reply is
    decoded after it, so a reply that does not decode leaves no connection
    open. *)
Theorem connection_closed_when_calls_return (w : World) (state : gmap string json)
    (t1 : list io_event) :
  get_socket w [] = (Ret tt, t1) ->
  sendall_outcome w (JObj state) = None ->
  (dict_get state "status" = JStr "waiting_for_approval" ->
   exists response, recv_outcome w 4096 = Ok response) ->
  last (send_event state w []).2 = Some EvClose
  /\ length (filter is_close (send_event state w []).2) = 1%nat
  /\ exists fam a,
      (send_event state w []).2
      = exchange_script fam a (JObj state)
          (eq_str (dict_get state "status") "waiting_for_approval").
Proof.
  intros Hsock Hsent Hrecv.
  destruct (get_socket_connected _ _ Hsock) as (fam & a & -> & _).
  rewrite send_event_steps, Hsock, Hsent.
  destruct (eq_str (dict_get state "status") "waiting_for_approval") eqn:Hw.
  - apply eq_str_true in Hw. destruct (Hrecv Hw) as [response ->].
    repeat split. by exists fam, a.
  - repeat split. by exists fam, a.
Qed.

(** The application answers with bytes that are no JSON. *)
Lemma connection_closed_when_calls_return_witness :
  let w := peer_world ∅ (Ok (JObj request_doc)) (Ok "no json") (Fails JSONDecodeError) in
  last (send_event (request_state w request_doc) w []).2 = Some EvClose
  /\ length (filter is_close (send_event (request_state w request_doc) w []).2) = 1%nat.
Proof.
  intros w.
  destruct (connection_closed_when_calls_return w (request_state w request_doc)
              [EvSocket AF_UNIX; EvSetTimeout 300; EvConnect (UnixAddr SOCKET_PATH)])
    as (Hlast & Hone & _).
  - reflexivity.
  - reflexivity.
  - intros _. exists "no json". reflexivity.
  - split; [exact Hlast | exact Hone].
Defined.

(** ** [main]: inputs and replies that are no objects *)

(** X5.  A document on standard input that parses but is not a JSON
    object (an array, a string, a number, [true], [null]) makes [data.get]
    raise: the process ends with a traceback, status 1, and nothing has
    left it. *)
Theorem non_object_input_ends_in_traceback (w : World) (v : json) :
  stdin_load w = Ok v ->
  (forall d, v <> JObj d) ->
  run w = (Raise AttributeError, [])
  /\ exit_status (run w).1 = 1.
Proof.
  intros Hin Hv. unfold run.
  rewrite (main_parsed _ _ _ Hin), (main_body_not_dict _ _ _ Hv). done.
Qed.

Lemma non_object_input_ends_in_traceback_witness :
  run array_world = (Raise AttributeError, []).
Proof.
  apply (non_object_input_ends_in_traceback array_world (JArr [])).
  - reflexivity.
  - intros d. discriminate.
Defined.

Lemma translate_not_dict response w t :
  (forall d, response <> JObj d) ->
  translate response w t
  = (if truthy response then Raise AttributeError else Exit 0, t).
Proof.
  intros Hv. unfold translate.
  destruct response; try reflexivity; try (by destruct (truthy _)).
  by destruct (Hv m).
Qed.

(** X6.  On the permission path, a reply that decodes to something other
    than an object is not a decision: when it is falsy ([null], [false],
    0, an empty string or array) the process defers, with status 0 and no
    output; when it is truthy, [response.get] raises and the process ends
    with a traceback, status 1, still without output. *)
Theorem non_object_reply (w : World) (data : gmap string json) (response : json)
    (t : list io_event) :
  stdin_load w = Ok (JObj data) ->
  data !! "hook_event_name" = Some (JStr "PermissionRequest") ->
  send_event (request_state w data) w [] = (Ret response, t) ->
  (forall d, response <> JObj d) ->
  stdout_of (run w).2 = []
  /\ if truthy response
     then run w = (Raise AttributeError, t) /\ exit_status (run w).1 = 1
     else run w = (Exit 0, t) /\ exit_status (run w).1 = 0.
Proof.
  intros Hin Hev Hsend Hv.
  pose proof (send_event_silent (request_state w data) w) as Hquiet.
  rewrite Hsend in Hquiet. simpl in Hquiet.
  rewrite (run_request _ _ Hin Hev), Hsend, (translate_not_dict _ _ _ Hv).
  split; [done|]. by destruct (truthy response).
Qed.

Lemma non_object_reply_witness :
  run array_reply_world = (Raise AttributeError, asked_trace array_reply_world)
  /\ exit_status (run array_reply_world).1 = 1.
Proof.
  destruct (non_object_reply array_reply_world request_doc (JArr [JInt 1])
              (asked_trace array_reply_world)) as (_ & Hrun).
  - reflexivity.
  - reflexivity.
  - by vm_compute.
  - intros d. discriminate.
  - exact Hrun.
Defined.

(** ** [main]: what a run can do at most *)

Lemma translate_trace response w t :
  (translate response w t).2 = t
  \/ exists doc, (translate response w t).2 = (t ++ [EvPrint doc])%list.
Proof.
  destruct response as [| | | | | |reply];
    try (rewrite translate_not_dict by (intros d; discriminate); by left).
  destruct (truthy (JObj reply)) eqn:Ht; [|rewrite translate_falsy by done; by left].
  rewrite translate_dict by done. cbv zeta.
  destruct (eq_str _ "allow"); [right; by eexists|].
  destruct (eq_str _ "deny"); [right; by eexists|by left].
Qed.

Lemma translate_result response w t :
  (translate response w t).1 = Exit 0
  \/ (translate response w t).1 = Raise AttributeError.
Proof.
  destruct response as [| | | | | |reply];
    try (rewrite translate_not_dict by (intros d; discriminate);
         destruct (truthy _); by eauto).
  destruct (truthy (JObj reply)) eqn:Ht; [|rewrite translate_falsy by done; by left].
  rewrite translate_dict by done. cbv zeta.
  destruct (eq_str _ "allow"); [by left|].
  destruct (eq_str _ "deny"); by left.
Qed.

Lemma send_event_never_exits state w code : (send_event state w []).1 <> Exit code.
Proof.
  send_event_cases state w; simpl; unfold absorbed;
    repeat match goal with
           | |- context [send_event_catches ?e] => destruct (send_event_catches e)
           | |- context [nonempty ?s] => destruct (nonempty s)
           | |- context [loads_decode ?w ?s] => destruct (loads_decode w s)
           end; simpl; discriminate.
Qed.

(** The events of a run: none, or those of one [send_event], followed on
    the permission path by at most one [print]. *)
Lemma run_trace w :
  (run w).2 = []
  \/ exists data st,
      stdin_load w = Ok (JObj data) /\ record_of w data = Record_ st
      /\ ((run w).2 = (send_event st w []).2
          \/ eq_str (dict_get_default data "hook_event_name" (JStr "")) "PermissionRequest"
             = true
             /\ exists doc, (run w).2 = ((send_event st w []).2 ++ [EvPrint doc])%list).
Proof.
  unfold run. destruct (stdin_load w) as [v|e] eqn:Hin;
    [|rewrite (main_load_fails _ _ _ Hin); by left].
  rewrite (main_parsed _ _ _ Hin).
  destruct v as [| | | | | |data]; try by left.
  rewrite main_body_dict.
  destruct (record_of w data) as [|st] eqn:Hrec; [by left|].
  right. exists data, st. split; [done|]. split; [done|].
  destruct (eq_str _ "PermissionRequest");
    destruct (send_event st w []) as [[r|e|code] t'] eqn:Hs; simpl; try by left.
  destruct (translate_trace r w t') as [->|[doc ->]]; [by left|].
  right. split; [done|]. by exists doc.
Qed.

(** X8.  A run writes at most one record and creates at most one socket:
    there is no retry and no second connection, whatever fails. *)
Theorem at_most_one_record_per_run (w : World) :
  (length (filter is_write (run w).2) <= 1)%nat
  /\ (length (filter is_socket (run w).2) <= 1)%nat.
Proof.
  assert (forall st,
            (length (filter is_write (send_event st w []).2) <= 1)%nat
            /\ (length (filter is_socket (send_event st w []).2) <= 1)%nat) as Hone.
  { intros st. send_event_cases st w; simpl; split; lia. }
  destruct (run_trace w) as [->|(data & st & _ & _ & [->|(_ & doc & ->)])].
  - simpl. lia.
  - apply Hone.
  - rewrite !filter_app, !length_app. simpl. destruct (Hone st). lia.
Qed.

(** X9.  The script asks for no exit status but 0 and 1: whenever [main]
    leaves through [sys.exit], the argument is 0 or 1 (never 2), and it is 1
    exactly when standard input fails to parse with a [JSONDecodeError];
    [send_event] and the functions it calls never call [sys.exit].  (The
    status the interpreter reports after an uncaught exception, or on a
    failed flush of standard output at shutdown, is its own.) *)
Theorem script_exits_with_zero_or_one (w : World) :
  (forall code, (run w).1 = Exit code -> code = 0 \/ code = 1)
  /\ ((run w).1 = Exit 1 <-> stdin_load w = Fails JSONDecodeError)
  /\ (forall state code, (send_event state w []).1 <> Exit code).
Proof.
  assert (forall code, (run w).1 = Exit code ->
            code = 0 /\ (exists v, stdin_load w = Ok v)
            \/ code = 1 /\ stdin_load w = Fails JSONDecodeError) as Hexit.
  { intros code. unfold run. destruct (stdin_load w) as [v|e] eqn:Hin.
    - rewrite (main_parsed _ _ _ Hin). intros Hcode. left. split; [|by eauto].
      destruct v as [| | | | | |data]; try discriminate.
      rewrite main_body_dict in Hcode.
      destruct (record_of w data) as [|st]; [by injection Hcode|].
      pose proof (send_event_never_exits st w) as Hnever.
      destruct (eq_str _ "PermissionRequest");
        destruct (send_event st w []) as [[r|e|code'] t'] eqn:Hs; simpl in *;
        try discriminate; try (by destruct (Hnever code')).
      destruct (translate_result r w t') as [Hr|Hr]; rewrite Hr in Hcode;
        [by injection Hcode | discriminate].
    - rewrite (main_load_fails _ _ _ Hin). destruct e; simpl; try discriminate.
      intros [= <-]. by right. }
  split; [|split].
  - intros code Hcode. destruct (Hexit code Hcode) as [[-> _]|[-> _]]; eauto.
  - split.
    + intros Hcode. by destruct (Hexit 1 Hcode) as [[? _]|[_ ?]].
    + intros Hin. unfold run. by rewrite (main_load_fails _ _ _ Hin).
  - intros state code. apply send_event_never_exits.
Qed.

Lemma script_exits_with_zero_or_one_witness :
  (run (peer_world ∅ (Fails JSONDecodeError) (Ok "") (Ok JNull))).1 = Exit 1.
Proof.
  destruct (script_exits_with_zero_or_one
              (peer_world ∅ (Fails JSONDecodeError) (Ok "") (Ok JNull)))
    as (_ & Hone & _).
  apply Hone. reflexivity.
Defined.

(** X7.  Only a [PermissionRequest] writes to standard output: for every
    other event, and for input that does not parse or is no object,
    standard output stays empty whatever the application answers. *)
Theorem only_permission_request_prints (w : World) :
  (forall data, stdin_load w = Ok (JObj data) ->
                data !! "hook_event_name" <> Some (JStr "PermissionRequest")) ->
  stdout_of (run w).2 = [].
Proof.
  intros Hev.
  destruct (run_trace w) as [->|(data & st & Hin & _ & [->|(Hperm & _)])]; [done| |].
  - apply send_event_silent.
  - exfalso. apply (Hev data Hin). apply eq_str_true in Hperm.
    unfold dict_get_default in Hperm.
    destruct (data !! "hook_event_name") as [v|]; simpl in Hperm; [by subst|].
    discriminate.
Qed.

Lemma only_permission_request_prints_witness : stdout_of (run bare_world).2 = [].
Proof.
  apply (only_permission_request_prints bare_world).
  intros data Hin. injection Hin as <-. vm_compute. discriminate.
Defined.

(** ** The record: base fields and the ambient context *)

Lemma record_base_lookup w data st k :
  record_of w data = Record_ st ->
  k ∈ base_fields ->
  st !! k = initial_state w data !! k.
Proof.
  intros Hrec Hk. unfold record_of in Hrec.
  rewrite classify_expected in Hrec by done.
  destruct (Table.lookup _ _) as [|status extras]; [discriminate|].
  injection Hrec as <-.
  rewrite lookup_fold_copy_ne.
  - apply lookup_insert_ne. intros <-. revert Hk. by apply (bool_decide_unpack _).
  - intros x <-. by apply (key_not_base x).
Qed.

(** X10.  Every record written to the socket carries [session_id], [cwd]
    and [event] as the input has them, whatever their JSON type, with the
    defaults "unknown", "" and "" for a missing key, and [pid] as the
    parent process id; no event-specific field overwrites them. *)
Theorem sent_record_base_fields (w : World) (payload : json) :
  EvSendAll payload ∈ (run w).2 ->
  exists data st,
    stdin_load w = Ok (JObj data)
    /\ payload = JObj st
    /\ st !! "session_id" = Some (dict_get_default data "session_id" (JStr "unknown"))
    /\ st !! "cwd" = Some (dict_get_default data "cwd" (JStr ""))
    /\ st !! "event" = Some (dict_get_default data "hook_event_name" (JStr ""))
    /\ st !! "pid" = Some (JInt (getppid w)).
Proof.
  intros Hsent. apply run_writes in Hsent as (data & st & Hin & Hrec & ->).
  exists data, st. split; [done|]. split; [done|].
  rewrite !(record_base_lookup w data st _ Hrec) by by apply (bool_decide_unpack _).
  unfold initial_state, build_state. by simplify_map_eq.
Qed.

Lemma sent_record_base_fields_witness :
  exists st,
    JObj bare_record = JObj st
    /\ st !! "session_id" = Some (JStr "unknown")
    /\ st !! "pid" = Some (JInt 4242).
Proof.
  destruct (sent_record_base_fields bare_world (JObj bare_record))
    as (data & st & Hin & Hst & Hsession & _ & _ & Hpid).
  - vm_compute. do 3 right. left.
  - exists st. split; [exact Hst|].
    injection Hin as <-. split; [exact Hsession | exact Hpid].
Defined.





Example pane_of_remote_session : get_tmux_target remote_world = Some "%42".
Proof. reflexivity. Qed.

(** ** [get_tty] *)

Lemma startswith_app p s : Str.startswith p (p ++ s) = true.
Proof. induction p as [|c p IH]; simpl; [done|]. by rewrite Ascii.eqb_refl. Qed.

(** X12.  A terminal name found by [ps] wins over the names of standard
    input and output, and is always reported as a path under [/dev/]: the
    prefix is added when it is missing and is not doubled.  Without a
    usable name from [ps], the name of standard input is taken, else that
    of standard output, else there is none. *)
Theorem get_tty_prefers_ps (w : World) :
  match ps_name w with
  | Some name =>
      exists path,
        get_tty w = Some path
        /\ Str.startswith "/dev/" path = true
        /\ (path = name \/ Str.startswith "/dev/" name = false /\ path = "/dev/" ++ name)
  | None =>
      get_tty w = match ttyname_stdin w with
                  | Some path => Some path
                  | None => ttyname_stdout w
                  end
  end.
Proof.
  unfold ps_name, get_tty. destruct (ps_stdout w) as [out|]; [|done].
  destruct (nonempty (Str.strip out) && negb (String.eqb (Str.strip out) "??")
            && negb (String.eqb (Str.strip out) "-")); [|done].
  destruct (Str.startswith "/dev/" (Str.strip out)) eqn:Hdev.
  - exists (Str.strip out). by eauto.
  - exists ("/dev/" ++ Str.strip out). split; [done|].
    split; [apply startswith_app | by right].
Qed.

Example tty_from_ps :
  get_tty (probe_world ∅ (Some " ttys001 ") (Some "/dev/pts/9") None None)
  = Some "/dev/ttys001".
Proof. reflexivity. Qed.

Example tty_placeholder_falls_back :
  get_tty (probe_world ∅ (Some "??") (Some "/dev/pts/9") None None)
  = Some "/dev/pts/9".
Proof. reflexivity. Qed.

(** ** Who waits for an answer *)

Lemma lookup_waiting event notification_type extras :
  Table.lookup event notification_type = Table.Status "waiting_for_approval" extras ->
  event = JStr "PermissionRequest".
Proof.
  unfold Table.lookup. destruct event as [| | | |tag| |]; try discriminate.
  destruct (String.eqb tag "Notification").
  { unfold Table.notification_row.
    destruct (eq_str notification_type "permission_prompt"); [discriminate|].
    destruct (eq_str notification_type "idle_prompt"); discriminate. }
  unfold Table.rows. simpl.
  repeat match goal with
         | |- context [String.eqb tag ?lit] =>
             let E := fresh "E" in
             destruct (String.eqb tag lit) eqn:E;
             [apply String.eqb_eq in E; subst tag; simpl;
              first [discriminate | reflexivity] |]
         end.
  simpl. discriminate.
Qed.

Lemma record_waiting w data st :
  record_of w data = Record_ st ->
  eq_str (dict_get st "status") "waiting_for_approval" = true ->
  data !! "hook_event_name" = Some (JStr "PermissionRequest").
Proof.
  intros Hrec Hstatus. unfold record_of in Hrec.
  rewrite classify_expected in Hrec by done.
  destruct (Table.lookup _ _) as [|status extras] eqn:Hrow; [discriminate|].
  injection Hrec as <-. apply eq_str_true in Hstatus.
  unfold dict_get in Hstatus.
  rewrite lookup_fold_copy_ne in Hstatus by apply key_not_status.
  rewrite lookup_insert_eq in Hstatus. simpl in Hstatus. injection Hstatus as ->.
  apply lookup_waiting in Hrow. unfold dict_get_default in Hrow.
  destruct (data !! "hook_event_name") as [v|]; simpl in Hrow; [by subst|].
  discriminate.
Qed.

Lemma send_event_reads state w n :
  EvRecv n ∈ (send_event state w []).2 ->
  eq_str (dict_get state "status") "waiting_for_approval" = true /\ n = 4096.
Proof.
  send_event_cases state w; simpl; intros Hin; in_trace Hin; by subst.
Qed.

(** X13.  The process reads from the socket, and so can block, only for a
    [PermissionRequest]: every other event is sent without waiting.  A run
    makes at most one read, and that read is a [recv] of at most 4096
    bytes. *)
Theorem only_permission_request_waits (w : World) :
  (length (filter is_read (run w).2) <= 1)%nat
  /\ forall n,
      EvRecv n ∈ (run w).2 ->
      n = 4096
      /\ exists data,
          stdin_load w = Ok (JObj data)
          /\ data !! "hook_event_name" = Some (JStr "PermissionRequest").
Proof.
  split.
  - assert (forall st, (length (filter is_read (send_event st w []).2) <= 1)%nat)
      as Hone.
    { intros st. send_event_cases st w; simpl; lia. }
    destruct (run_trace w) as [->|(data & st & _ & _ & [->|(_ & doc & ->)])].
    + simpl. lia.
    + apply Hone.
    + rewrite filter_app, length_app. simpl. specialize (Hone st). lia.
  - intros n Hread.
    destruct (run_trace w) as [Ht|(data & st & Hin & Hrec & Ht)].
    { rewrite Ht in Hread. by apply elem_of_nil in Hread. }
    assert (EvRecv n ∈ (send_event st w []).2) as Hsend.
    { destruct Ht as [Ht|(_ & doc & Ht)]; rewrite Ht in Hread; [done|].
      apply elem_of_app in Hread as [?|Hp]; [done|].
      apply list_elem_of_singleton in Hp. discriminate. }
    apply send_event_reads in Hsend as [Hwait ->]. split; [done|].
    exists data. split; [done|]. by eapply record_waiting.
Qed.

Lemma only_permission_request_waits_witness :
  exists data,
    stdin_load silent_world = Ok (JObj data)
    /\ data !! "hook_event_name" = Some (JStr "PermissionRequest").
Proof.
  destruct (only_permission_request_waits silent_world) as (_ & Hreads).
  destruct (Hreads 4096) as (_ & Hdata).
  - vm_compute. do 4 right. left.
  - exact Hdata.
Defined.

(** ** What it takes to print a decision *)

Lemma send_event_returns_reply state w v t :
  send_event state w [] = (Ret v, t) ->
  v <> JNull ->
  exists fam a response,
    t = exchange_script fam a (JObj state) true
    /\ connect_outcome w a = None
    /\ sendall_outcome w (JObj state) = None
    /\ recv_outcome w 4096 = Ok response
    /\ response <> ""
    /\ loads_decode w response = Ok v.
Proof.
  send_event_cases state w; intros Heq Hv; try discriminate;
    injection Heq as <- <-; try done.
  exists fam, a, response. repeat split; try done.
  intros ->. discriminate.
Qed.

Lemma translate_printed response w t doc :
  (translate response w t).2 = (t ++ [EvPrint doc])%list ->
  exists reply,
    response = JObj reply
    /\ (reply !! "decision" = Some (JStr "allow") /\ doc = output_allow
        \/ reply !! "decision" = Some (JStr "deny")
           /\ doc = output_deny (dict_get_default reply "reason" (JStr ""))).
Proof.
  assert (forall d, t <> (t ++ [EvPrint d])%list) as Hgrow.
  { intros d H. apply (f_equal length) in H. rewrite length_app in H. simpl in H. lia. }
  destruct response as [| | | | | |reply];
    try (rewrite translate_not_dict by (intros d; discriminate); simpl;
         intros H; by destruct (Hgrow doc)).
  destruct (truthy (JObj reply)) eqn:Ht;
    [|rewrite translate_falsy by done; simpl; intros H; by destruct (Hgrow doc)].
  rewrite translate_dict by done. cbv zeta.
  assert (forall lit,
            eq_str (dict_get_default reply "decision" (JStr "ask")) lit = true ->
            lit <> "ask" -> reply !! "decision" = Some (JStr lit)) as Hdec.
  { intros lit Hlit Hne. apply eq_str_true in Hlit. unfold dict_get_default in Hlit.
    destruct (reply !! "decision") as [v|]; simpl in Hlit; [by subst|].
    injection Hlit as <-. done. }
  destruct (eq_str _ "allow") eqn:Ea.
  { simpl. intros H%app_inv_head. injection H as <-.
    exists reply. split; [done|]. left. split; [|done]. by apply Hdec. }
  destruct (eq_str _ "deny") eqn:Ed.
  { simpl. intros H%app_inv_head. injection H as <-.
    exists reply. split; [done|]. right. split; [|done]. by apply Hdec. }
  simpl. intros H. by destruct (Hgrow doc).
Qed.

Lemma allow_is_not_deny message : allow_directive <> deny_directive message.
Proof.
  intros H.
  apply (f_equal (fun v => match v with
                           | JObj m => m !! "behavior"
                           | _ => None
                           end)) in H.
  unfold allow_directive, deny_directive in H.
  rewrite lookup_singleton_eq, lookup_insert_ne, lookup_singleton_eq in H by done.
  discriminate.
Qed.

(** X14.  Nothing is decided without the application.  Whenever the
    process prints a document, the event was a [PermissionRequest] and the
    run was one complete exchange: the connection was made, the record was
    written, the one read returned bytes, the socket was closed, those
    bytes decode to an object, and the document, printed last, carries the
    decision of that object: behavior=allow only for the decision "allow",
    behavior=deny only for the decision "deny".  A refused connection, a
    failed write, a timeout, an empty or an undecodable reply never
    produces an approval. *)
Theorem printed_decision_is_the_reply (w : World) (doc : json) :
  EvPrint doc ∈ (run w).2 ->
  exists data fam a response reply,
    stdin_load w = Ok (JObj data)
    /\ data !! "hook_event_name" = Some (JStr "PermissionRequest")
    /\ (run w).2
       = (exchange_script fam a (JObj (request_state w data)) true
          ++ [EvPrint doc])%list
    /\ connect_outcome w a = None
    /\ sendall_outcome w (JObj (request_state w data)) = None
    /\ recv_outcome w 4096 = Ok response
    /\ response <> ""
    /\ loads_decode w response = Ok (JObj reply)
    /\ (reply !! "decision" = Some (JStr "allow")
        /\ directive doc = Some allow_directive
        \/ reply !! "decision" = Some (JStr "deny")
           /\ (exists message, directive doc = Some (deny_directive message))
           /\ directive doc <> Some allow_directive).
Proof.
  intros Hprint. unfold run in *.
  destruct (stdin_load w) as [v|e] eqn:Hin;
    [|rewrite (main_load_fails _ _ _ Hin) in Hprint; by apply elem_of_nil in Hprint].
  rewrite (main_parsed _ _ _ Hin) in Hprint |- *.
  destruct v as [| | | | | |data]; try (by apply elem_of_nil in Hprint).
  rewrite main_body_dict in Hprint |- *.
  destruct (record_of w data) as [|st] eqn:Hrec; [by apply elem_of_nil in Hprint|].
  pose proof (send_event_silent st w) as Hquiet.
  assert (forall t, stdout_of t = [] -> EvPrint doc ∉ t) as Hnone.
  { intros t Ht Hd. assert (doc ∈ stdout_of t) as Hdoc.
    { unfold stdout_of. apply list_elem_of_omap. by exists (EvPrint doc). }
    rewrite Ht in Hdoc. by apply elem_of_nil in Hdoc. }
  destruct (eq_str _ "PermissionRequest") eqn:Hperm;
    destruct (send_event st w []) as [[r|e|code] t'] eqn:Hs; simpl in *;
    try (by destruct (Hnone t' Hquiet)).
  assert (data !! "hook_event_name" = Some (JStr "PermissionRequest")) as Hev.
  { apply eq_str_true in Hperm. unfold dict_get_default in Hperm.
    destruct (data !! "hook_event_name") as [v|]; simpl in Hperm; [by subst|].
    discriminate. }
  rewrite (record_of_request _ _ Hev) in Hrec. injection Hrec as <-.
  destruct (translate_trace r w t') as [Ht|[doc' Ht]];
    rewrite Ht in Hprint; [by destruct (Hnone t' Hquiet)|].
  apply elem_of_app in Hprint as [?|Hd]; [by destruct (Hnone t' Hquiet)|].
  apply list_elem_of_singleton in Hd. injection Hd as <-.
  rewrite Ht.
  apply translate_printed in Ht as (reply & -> & Hdecision).
  destruct (send_event_returns_reply _ w (JObj reply) t' Hs)
    as (fam & a & response & -> & Hconn & Hsent & Hrecv & Hne & Hloads); [done|].
  exists data, fam, a, response, reply.
  do 8 (split; [done|]).
  destruct Hdecision as [[Hd ->]|[Hd ->]].
  - left. split; [done|]. apply directive_hook_output.
  - right. split; [done|]. rewrite directive_output_deny.
    split; [by eexists|]. intros H.
    apply (allow_is_not_deny (py_or (dict_get_default reply "reason" (JStr ""))
                                (JStr DENIED_DEFAULT))).
    congruence.
Qed.

Lemma printed_decision_is_the_reply_witness :
  exists (a : address) (reply : gmap string json),
    connect_outcome (asked_world {[ "decision" := JStr "allow" ]}) a = None
    /\ loads_decode (asked_world {[ "decision" := JStr "allow" ]}) "{...}"
       = Ok (JObj reply)
    /\ reply !! "decision" = Some (JStr "allow").
Proof.
  destruct (printed_decision_is_the_reply
              (asked_world {[ "decision" := JStr "allow" ]}) output_allow)
    as (data & fam & a & response & reply & _ & _ & _ & Hconn & _ & _ & _
        & Hloads & Hdecision).
  - vm_compute. do 6 right. left.
  - exists a, reply. split; [exact Hconn|]. split; [exact Hloads|].
    destruct Hdecision as [[Hallow _]|[_ [_ Hnot]]]; [exact Hallow|].
    exfalso. apply Hnot. reflexivity.
Defined.
